(** * Lazywarden backup decryption: a shallow embedding of
      [home-manager/modules/lazywarden/decrypt_lazywarden.py]

    The script opens a password-protected ZIP, decrypts the AES-CFB blob it
    holds with a key derived by Argon2i, re-serialises the JSON inside and
    optionally unpacks a nested attachments ZIP.

    The functions of the script ([derive_key], [decrypt_blob], [main]) are
    transcribed statement by statement; [main] is cut at its three numbered
    parts and at the suites of its [try] statements.  What the script
    imports is kept apart from it:
    - [base64], [pathlib], the cipher objects of [cryptography] and the
      member bookkeeping of [pyzipper] are small executable models of the
      library behaviour the script relies on;
    - the primitives themselves (the Argon2 hash, the AES block function, the
      JSON parser and printer, the ZIP reader) are the methods of the class
      [Libraries], and what the operating system refuses is a record [OS]:
      the script is verified for every instance of both. *)

From stdpp Require Import base option list gmap strings pretty sorting.
From Stdlib Require Import Strings.Byte Strings.Ascii NArith ZArith Lia.

Set Default Proof Using "Type".
Open Scope list_scope.

(** ** Python values and exceptions *)

(** [bytes] objects. *)
Abbreviation bytes := (list byte).

(** [str.encode()]: a [str] is represented by its UTF-8 text. *)
Definition encode (s : string) : bytes := String.list_byte_of_string s.

(** The exception classes that the script and its libraries can raise.
    [MalformedBlob] is the error kind the specification names for a blob that
    is too short; the script defines no such class and nothing below raises
    it. *)
Inductive exn_class :=
  | ValueError            (* cryptography: bad key or IV size *)
  | BinasciiError         (* binascii.Error, a ValueError *)
  | JSONDecodeError       (* json.JSONDecodeError, a ValueError *)
  | UnicodeDecodeError    (* a ValueError *)
  | HashingError          (* argon2.exceptions.HashingError *)
  | RuntimeError          (* pyzipper: "Bad password for file ..." *)
  | NotImplementedError   (* a RuntimeError *)
  | BadZipFile
  | OSError
  | FileExistsError       (* an OSError *)
  | AlreadyFinalized      (* cryptography.exceptions.AlreadyFinalized *)
  | KeyError
  | KeyboardInterrupt     (* a BaseException that is not an Exception *)
  | MalformedBlob.

Global Instance exn_class_eq_dec : EqDecision exn_class.
Proof. solve_decision. Defined.

Record exn := Raise { exn_cls : exn_class; exn_msg : string }.

Global Instance exn_eq_dec : EqDecision exn.
Proof. solve_decision. Defined.

(** [isinstance(e, Exception)] and [isinstance(e, RuntimeError)], which the
    [except] clauses of [main] test. *)
Definition is_Exception (e : exn) : bool :=
  match exn_cls e with KeyboardInterrupt => false | _ => true end.

Definition is_RuntimeError (e : exn) : bool :=
  match exn_cls e with RuntimeError | NotImplementedError => true | _ => false end.

(** A computation that returns a value or raises. *)
Definition result (A : Type) : Type := exn + A.

Definition ok {A} (a : A) : result A := inr a.
Definition raise {A} (c : exn_class) (m : string) : result A := inl (Raise c m).

Definition bind {A B} (m : result A) (k : A -> result B) : result B :=
  match m with
  | inl e => inl e
  | inr a => k a
  end.

Notation "'do' x <- m ; k" := (bind m (fun x => k))
  (at level 10, x pattern, m at level 100, k at level 200,
   format "'[v' 'do'  x  <-  m ; '/' k ']'").

(** ** [base64]: the URL-safe alphabet over [binascii] *)

Module base64.

(** A C [unsigned char] store: the low eight bits. *)
Definition to_uchar (n : N) : byte :=
  match Byte.of_N (n mod 256)%N with
  | Some b => b
  | None => x00
  end.

(** [table_b2a_base64]: the standard alphabet. *)
Definition table_b2a_base64 : bytes :=
  encode "ABCDEFGHIJKLMNOPQRSTUVWXYZabcdefghijklmnopqrstuvwxyz0123456789+/".

Definition b2a (sextet : N) : byte :=
  nth (N.to_nat sextet) table_b2a_base64 "="%byte.

(** [table_a2b_base64]: the value of an alphabet character, [None] for
    every other byte (the C table holds a value of 64 or more there). *)
Definition table_a2b_base64 (c : byte) : option N :=
  let n := Byte.to_N c in
  if ((65 <=? n) && (n <=? 90))%N then Some (n - 65)%N
  else if ((97 <=? n) && (n <=? 122))%N then Some (n - 71)%N
  else if ((48 <=? n) && (n <=? 57))%N then Some (n + 4)%N
  else if (n =? 43)%N then Some 62%N
  else if (n =? 47)%N then Some 63%N
  else None.

Definition BASE64_PAD : byte := "="%byte.

(** [binascii.b2a_base64(data, newline=False)]: three bytes make four
    characters; a last group of one or two bytes is padded with [=]. *)
Fixpoint b2a_base64 (data : bytes) : bytes :=
  match data with
  | [] => []
  | [a] =>
      let a := Byte.to_N a in
      [b2a (N.shiftr a 2); b2a (N.shiftl (N.land a 3) 4);
       BASE64_PAD; BASE64_PAD]
  | [a; b] =>
      let a := Byte.to_N a in
      let b := Byte.to_N b in
      [b2a (N.shiftr a 2);
       b2a (N.lor (N.shiftl (N.land a 3) 4) (N.shiftr b 4));
       b2a (N.shiftl (N.land b 15) 2);
       BASE64_PAD]
  | a :: b :: c :: rest =>
      let a := Byte.to_N a in
      let b := Byte.to_N b in
      let c := Byte.to_N c in
      b2a (N.shiftr a 2)
      :: b2a (N.lor (N.shiftl (N.land a 3) 4) (N.shiftr b 4))
      :: b2a (N.lor (N.shiftl (N.land b 15) 2) (N.shiftr c 6))
      :: b2a (N.land c 63)
      :: b2a_base64 rest
  end.

(** [binascii.a2b_base64(data)] in its default, non-strict mode (CPython
    3.11 and later): the loop of the C function over the remaining input, with its local variables
    [quad_pos], [leftchar] and [pads] and the bytes written so far.
    A byte outside the alphabet is skipped; a pad that completes a quad
    ends the decoding ([goto done]); input that ends inside a quad is an
    error. *)
Fixpoint a2b_loop (ascii_data : bytes) (quad_pos : nat) (leftchar : N)
    (pads : nat) (bin_data : bytes) : result bytes :=
  match ascii_data with
  | [] =>
      match quad_pos with
      | 0 => ok bin_data
      | 1 =>
          raise BinasciiError
            ("Invalid base64-encoded string: number of data characters ("
             +:+ pretty (length bin_data / 3 * 4 + 1)%nat
             +:+ ") cannot be 1 more than a multiple of 4")
      | _ => raise BinasciiError "Incorrect padding"
      end
  | this_ch :: rest =>
      if Byte.eqb this_ch BASE64_PAD then
        if (2 <=? quad_pos)%nat then
          if (4 <=? quad_pos + S pads)%nat then ok bin_data
          else a2b_loop rest quad_pos leftchar (S pads) bin_data
        else a2b_loop rest quad_pos leftchar pads bin_data
      else
        match table_a2b_base64 this_ch with
        | None => a2b_loop rest quad_pos leftchar pads bin_data
        | Some v =>
            match quad_pos with
            | 0 => a2b_loop rest 1 v 0 bin_data
            | 1 =>
                a2b_loop rest 2 (N.land v 15) 0
                  (bin_data ++ [to_uchar (N.lor (N.shiftl leftchar 2) (N.shiftr v 4))])
            | 2 =>
                a2b_loop rest 3 (N.land v 3) 0
                  (bin_data ++ [to_uchar (N.lor (N.shiftl leftchar 4) (N.shiftr v 2))])
            | _ =>
                a2b_loop rest 0 0 0
                  (bin_data ++ [to_uchar (N.lor (N.shiftl leftchar 6) v)])
            end
        end
  end.

Definition a2b_base64 (data : bytes) : result bytes :=
  a2b_loop data 0 0 0 [].

(** [bytes.translate] with the two tables of the URL-safe variant. *)
Definition _urlsafe_encode_translation (c : byte) : byte :=
  if Byte.eqb c "+" then "-"%byte
  else if Byte.eqb c "/" then "_"%byte
  else c.

Definition _urlsafe_decode_translation (c : byte) : byte :=
  if Byte.eqb c "-" then "+"%byte
  else if Byte.eqb c "_" then "/"%byte
  else c.

Definition urlsafe_b64encode (s : bytes) : bytes :=
  map _urlsafe_encode_translation (b2a_base64 s).

Definition urlsafe_b64decode (s : bytes) : result bytes :=
  a2b_base64 (map _urlsafe_decode_translation s).

End base64.

(** ** [cryptography]: AES in CFB mode *)

Module cryptography.

Definition xor_bits (x y : bool * (bool * (bool * (bool * (bool * (bool * (bool * bool)))))))
    : bool * (bool * (bool * (bool * (bool * (bool * (bool * bool)))))) :=
  let '(x0, (x1, (x2, (x3, (x4, (x5, (x6, x7))))))) := x in
  let '(y0, (y1, (y2, (y3, (y4, (y5, (y6, y7))))))) := y in
  (xorb x0 y0, (xorb x1 y1, (xorb x2 y2, (xorb x3 y3,
    (xorb x4 y4, (xorb x5 y5, (xorb x6 y6, xorb x7 y7))))))).

(** The C operator [^] on two [unsigned char]. *)
Definition byte_xor (a b : byte) : byte :=
  Byte.of_bits (xor_bits (Byte.to_bits a) (Byte.to_bits b)).

(** [algorithms.AES(key)]: the key must have 128, 192 or 256 bits. *)
Record AES := { AES_key : bytes }.

Definition algorithms_AES (key : bytes) : result AES :=
  if bool_decide (length key * 8 ∈ [128; 192; 256]) then ok {| AES_key := key |}
  else raise ValueError
         ("Invalid key size (" +:+ pretty (length key * 8) +:+ ") for AES.").

(** [modes.CFB(initialization_vector)]. *)
Record CFB := { initialization_vector : bytes }.

Definition modes_CFB (iv : bytes) : CFB := {| initialization_vector := iv |}.

(** [Cipher(algorithm, mode, backend)]: the constructor has the mode
    validate itself for the algorithm; for CFB the IV must fill one block
    of 128 bits. *)
Record Cipher := { algorithm : AES; mode : CFB }.

Definition block_size : nat := 128.

Definition mk_Cipher (a : AES) (m : CFB) : result Cipher :=
  if bool_decide (length (initialization_vector m) * 8 = block_size)
  then ok {| algorithm := a; mode := m |}
  else raise ValueError
         ("Invalid IV size (" +:+ pretty (length (initialization_vector m))
          +:+ ") for CFB.").

(** A cipher context, the object behind [cipher.decryptor()]: the key, the
    feedback register [ivec], the position [num] inside the current block,
    and whether [finalize] was called. *)
Record CipherContext := {
  ctx_key : bytes;
  ctx_ivec : bytes;
  ctx_num : nat;
  ctx_finalized : bool;
}.

Definition decryptor (c : Cipher) : CipherContext :=
  {| ctx_key := AES_key (algorithm c);
     ctx_ivec := initialization_vector (mode c);
     ctx_num := 0;
     ctx_finalized := false |}.

Section BlockCipher.

(** The block encryption of the cipher: key, then a block of sixteen bytes. *)
Variable block_encrypt : bytes -> bytes -> bytes.

(** The byte loop of CFB with full-block feedback, deciphering: when a
    block starts the register is encrypted in place; each input byte is
    combined with the register byte at [num] and then stored there. *)
Fixpoint cfb128_decrypt (key ivec : bytes) (num : nat) (inp : bytes)
    : bytes * nat * bytes :=
  match inp with
  | [] => (ivec, num, [])
  | c :: rest =>
      let ivec := if (num =? 0)%nat then block_encrypt key ivec else ivec in
      let o := byte_xor (nth num ivec x00) c in
      let ivec := <[num := c]> ivec in
      let '(ivec', num', out) := cfb128_decrypt key ivec (S num mod 16) rest in
      (ivec', num', o :: out)
  end.

(** The same loop, enciphering: the output byte is what is stored. *)
Fixpoint cfb128_encrypt (key ivec : bytes) (num : nat) (inp : bytes)
    : bytes * nat * bytes :=
  match inp with
  | [] => (ivec, num, [])
  | p :: rest =>
      let ivec := if (num =? 0)%nat then block_encrypt key ivec else ivec in
      let o := byte_xor (nth num ivec x00) p in
      let ivec := <[num := o]> ivec in
      let '(ivec', num', out) := cfb128_encrypt key ivec (S num mod 16) rest in
      (ivec', num', o :: out)
  end.

(** AES-CFB of a whole message under a key and an IV: the loop started on
    the IV at position 0. *)
Definition AES_CFB_encrypt (key iv plaintext : bytes) : bytes :=
  (cfb128_encrypt key iv 0 plaintext).2.

Definition AES_CFB_decrypt (key iv ciphertext : bytes) : bytes :=
  (cfb128_decrypt key iv 0 ciphertext).2.

(** [ctx.update(data)] on a decryptor: the context advances and the bytes
    come out at once (a stream mode buffers nothing). *)
Definition update (ctx : CipherContext) (data : bytes)
    : result (CipherContext * bytes) :=
  if ctx_finalized ctx then raise AlreadyFinalized "Context was already finalized."
  else
    let '(ivec, num, out) :=
      cfb128_decrypt (ctx_key ctx) (ctx_ivec ctx) (ctx_num ctx) data in
    ok ({| ctx_key := ctx_key ctx; ctx_ivec := ivec; ctx_num := num;
           ctx_finalized := false |}, out).

(** [ctx.finalize()]: a stream mode has no last block to flush. *)
Definition finalize (ctx : CipherContext) : result (CipherContext * bytes) :=
  if ctx_finalized ctx then raise AlreadyFinalized "Context was already finalized."
  else
    ok ({| ctx_key := ctx_key ctx; ctx_ivec := ctx_ivec ctx;
           ctx_num := ctx_num ctx; ctx_finalized := true |}, []).

End BlockCipher.

End cryptography.

(** ** [argon2.low_level] *)

Module argon2.

(** [argon2.low_level.Type]. *)
Inductive Type_ := D | I | ID.

(** The shortest salt the Argon2 reference library accepts. *)
Definition ARGON2_MIN_SALT_LENGTH : nat := 8.

(** The contract of [hash_secret_raw] that the script relies on, for a hash
    function [h] of its signature: what it returns has [hash_len] bytes, and
    with the cost parameters of the script it returns for every secret and
    every salt of sixteen bytes (exhausted memory and secrets beyond 4 GiB
    set aside). *)
Definition returns_hash_len
    (h : bytes -> bytes -> Z -> Z -> Z -> nat -> Type_ -> result bytes) : Prop :=
  forall secret salt time_cost memory_cost parallelism hash_len type key,
    h secret salt time_cost memory_cost parallelism hash_len type = ok key ->
    length key = hash_len.

Definition accepts_salt16
    (h : bytes -> bytes -> Z -> Z -> Z -> nat -> Type_ -> result bytes) : Prop :=
  forall secret salt,
    length salt = 16 ->
    exists key, h secret salt 3%Z 65536%Z 1%Z 32 I = ok key.

End argon2.

(** ** [str] and [pathlib] helpers *)

Definition NL : string := String (Ascii.ascii_of_nat 10) EmptyString.

(** [needle in haystack] on [str]. *)
Fixpoint contains (needle haystack : string) : bool :=
  String.prefix needle haystack
  || match haystack with
     | EmptyString => false
     | String _ rest => contains needle rest
     end.

Module pathlib.

(** [fnmatch] for a pattern made of literal characters, [?] and [*]
    (the patterns of the script have no bracket expression); matching is
    case-sensitive and [*] also matches a leading dot, as in
    [Path.glob]. *)
Fixpoint fnmatch (pat : string) : string -> bool :=
  match pat with
  | EmptyString => fun name =>
      match name with EmptyString => true | String _ _ => false end
  | String p pat' =>
      if Ascii.eqb p "*"%char then
        fix star (name : string) : bool :=
          fnmatch pat' name
          || match name with
             | EmptyString => false
             | String _ name' => star name'
             end
      else fun name =>
        match name with
        | EmptyString => false
        | String c name' =>
            (Ascii.eqb p "?"%char || Ascii.eqb p c) && fnmatch pat' name'
        end
  end.

(** [name.rfind('.')], counted from offset [i]; [None] stands for -1. *)
Fixpoint rfind_dot (name : string) (i : nat) : option nat :=
  match name with
  | EmptyString => None
  | String c rest =>
      match rfind_dot rest (S i) with
      | Some j => Some j
      | None => if Ascii.eqb c "."%char then Some i else None
      end
  end.

(** [PurePath.stem]: the name without its last suffix; a dot in first or
    last position does not start a suffix. *)
Definition stem (name : string) : string :=
  match rfind_dot name 0 with
  | Some i =>
      if (0 <? i)%nat && (i <? String.length name - 1)%nat
      then String.substring 0 i name
      else name
  | None => name
  end.

(** A path relative to the directory that is globbed names a direct child
    when it has a single component. *)
Definition is_child (path : string) : bool := negb (contains "/" path).

(** [str(dir / name)] for a directory in pathlib's normal form and a single
    component: the directory itself for the empty component, the bare
    component below ["."], no second slash after a root. *)
Definition joinpath (dir name : string) : string :=
  if String.eqb name EmptyString then dir
  else if String.eqb dir "." then name
  else if String.eqb dir "/" || String.eqb dir "//" then dir +:+ name
  else dir +:+ "/" +:+ name.

End pathlib.

(** ** The file system under [output_dir] *)

(** What a path holds. *)
Inductive node :=
  | File (data : bytes)
  | Dir.

(** The entries below [output_dir], keyed by their path relative to it, in
    the order in which the operating system enumerates them ([os.scandir],
    which [Path.glob] iterates and does not sort). *)
Abbreviation listing := (list (string * node)).

Fixpoint fs_lookup (path : string) (fs : listing) : option node :=
  match fs with
  | [] => None
  | (p, n) :: rest => if String.eqb p path then Some n else fs_lookup path rest
  end.

(** Store a node at a path: an existing entry keeps its place, a new one is
    enumerated last. *)
Fixpoint fs_store (path : string) (n : node) (fs : listing) : listing :=
  match fs with
  | [] => [(path, n)]
  | (p, m) :: rest =>
      if String.eqb p path then (p, n) :: rest else (p, m) :: fs_store path n rest
  end.

Fixpoint fs_remove (path : string) (fs : listing) : listing :=
  match fs with
  | [] => []
  | (p, m) :: rest =>
      if String.eqb p path then fs_remove path rest else (p, m) :: fs_remove path rest
  end.

(** [list(output_dir.glob(pattern))]: the names of the direct children that
    match, in enumeration order. *)
Definition glob (pattern : string) (fs : listing) : list string :=
  map fst (List.filter (fun e => pathlib.is_child e.1 && pathlib.fnmatch pattern e.1) fs).

(** The tie-break that the specification words as "first in sorted order":
    Python's [sorted] on the candidate names, then the first of them. *)
Definition name_le (a b : string) : Prop := String.leb a b = true.

Global Instance name_le_dec : RelDecision name_le :=
  fun a b => decide (String.leb a b = true).

Definition first_in_sorted_order (names : list string) : option string :=
  head (merge_sort name_le names).

(** What the operating system may refuse.  Each field answers for one path:
    [None] lets the operation through.  A refused write either left the file
    system alone ([None], [open] failed) or left the file holding the bytes
    written so far. *)
Record OS := {
  os_read : string -> option exn;
  os_write : string -> bytes -> option (exn * option bytes);
  os_unlink : string -> option exn;
  os_mkdir : string -> option exn;
  (** [stat] on a path where no regular file is seen: [None] when it fails
      in a way that pathlib takes for absence (no such file, not a
      directory), otherwise the [OSError] (a name too long, a directory
      that may not be searched) *)
  os_stat : string -> option exn;
}.

(** ** [pyzipper] *)

Module pyzipper.

(** A member of an archive: its name, the compression method its header
    declares, and what reading it with a password gives (its bytes, or the
    exception the library raises: [RuntimeError "Bad password for file ..."]
    when the password is refused). *)
Record ZipInfo := {
  filename : string;
  compress_type : Z;
  read : bytes -> result bytes;
}.

Record AESZipFile := { filelist : list ZipInfo }.

Definition namelist (zf : AESZipFile) : list string :=
  map filename (filelist zf).

(** [zf.getinfo(name)]: the archive keeps a dictionary from names to
    members in which a later member replaces an earlier one of the same
    name. *)
Definition getinfo (zf : AESZipFile) (name : string) : option ZipInfo :=
  last (List.filter (fun i => String.eqb (filename i) name) (filelist zf)).

End pyzipper.

(** ** The primitives of the libraries

    What the script imports and this development does not look into: the
    Argon2 hash, the AES block function, the JSON parser and printer, and the
    reader of ZIP files.  The script is verified for every instance. *)
Class Libraries := {
  (** [argon2.low_level.hash_secret_raw(secret, salt, time_cost, memory_cost,
      parallelism, hash_len, type)] *)
  hash_secret_raw :
    bytes -> bytes -> Z -> Z -> Z -> nat -> argon2.Type_ -> result bytes;
  (** the AES block encryption: key, then a block of sixteen bytes *)
  AES_encrypt : bytes -> bytes -> bytes;
  (** parsed JSON values; [json.loads] on [bytes]; the text that
      [json.dump(data, f, indent=2, sort_keys=True)] writes *)
  JSON : Type;
  json_loads : bytes -> result JSON;
  json_dump : JSON -> bytes;
  (** [pyzipper.AESZipFile(file)] on the bytes of the file *)
  AESZipFile_open : bytes -> result pyzipper.AESZipFile;
}.

(** ** The script: key derivation and blob decryption *)

Section Codec.
Context {L : Libraries}.

(** derive_key: "Derive the 256-bit AES key - same Argon2 parameters
    Lazywarden uses." *)
Definition derive_key (pw : string) (salt : bytes) : result bytes :=
  hash_secret_raw (encode pw) salt
    (* time_cost *) 3
    (* memory_cost *) 65536
    (* parallelism *) 1
    (* hash_len *) 32
    (* type *) argon2.I.

(** decrypt_blob: "Reverse of encrypt() in Lazywarden backup."
    The layout is a 16-byte salt, a 16-byte IV, then the ciphertext; the
    slices are Python slices, which never raise. *)
Definition decrypt_blob (blob : bytes) (enc_pwd : string) : result bytes :=
  do data <- base64.urlsafe_b64decode blob;
  let salt := take 16 data in
  let iv := take 16 (drop 16 data) in
  let ct := drop 32 data in
  do key <- derive_key enc_pwd salt;
  do aes <- cryptography.algorithms_AES key;
  do cipher <- cryptography.mk_Cipher aes (cryptography.modes_CFB iv);
  do u <- cryptography.update AES_encrypt (cryptography.decryptor cipher) ct;
  do f <- cryptography.finalize (cryptography.decryptor cipher);
  ok (u.2 ++ f.2).

(** The decryption the comparison of the two formulations is made with: one
    decryptor, [update] on it, then [finalize] on the same object. *)
Definition decrypt_blob_single_decryptor (blob : bytes) (enc_pwd : string)
    : result bytes :=
  do data <- base64.urlsafe_b64decode blob;
  let salt := take 16 data in
  let iv := take 16 (drop 16 data) in
  let ct := drop 32 data in
  do key <- derive_key enc_pwd salt;
  do aes <- cryptography.algorithms_AES key;
  do cipher <- cryptography.mk_Cipher aes (cryptography.modes_CFB iv);
  let d := cryptography.decryptor cipher in
  do u <- cryptography.update AES_encrypt d ct;
  do f <- cryptography.finalize u.1;
  ok (u.2 ++ f.2).

End Codec.

(** ** The script as a program over the world it runs in *)

(** The world: the file at [zip_path] ([None] when there is no regular file
    there), the entries below [output_dir], and the lines printed so far. *)
Record World := {
  zip_file : option bytes;
  fs : listing;
  stdout : list string;
}.

Definition set_fs (w : World) (fs' : listing) : World :=
  {| zip_file := zip_file w; fs := fs'; stdout := stdout w |}.

(** How a statement ends: normally, with an exception on its way up, or with
    the [SystemExit] that [sys.exit(message)] raises (which no
    [except Exception] clause catches). *)
Inductive outcome (A : Type) :=
  | Normal (a : A)
  | Exc (e : exn)
  | SystemExit (msg : string).
Arguments Normal {A} a.
Arguments Exc {A} e.
Arguments SystemExit {A} msg.

(** The exit status of the interpreter: zero when [main] returns, one after
    [sys.exit] with a message or an uncaught exception. *)
Definition exit_status (o : outcome unit) : Z :=
  match o with
  | Normal _ => 0
  | Exc _ | SystemExit _ => 1
  end.

Definition prog (A : Type) : Type := World -> World * outcome A.

Definition pret {A} (a : A) : prog A := fun w => (w, Normal a).

Definition pbind {A B} (m : prog A) (k : A -> prog B) : prog B :=
  fun w =>
    match m w with
    | (w', Normal a) => k a w'
    | (w', Exc e) => (w', Exc e)
    | (w', SystemExit msg) => (w', SystemExit msg)
    end.

Notation "x <~ m ; k" := (pbind m (fun x => k))
  (at level 10, m at level 100, k at level 200,
   format "'[v' x  <~  m ; '/' k ']'").
Notation "m ;; k" := (pbind m (fun _ => k))
  (at level 100, k at level 200, right associativity,
   format "'[v' m ;; '/' k ']'").

(** A library call that returns or raises. *)
Definition lift {A} (r : result A) : prog A :=
  fun w => (w, match r with inr a => Normal a | inl e => Exc e end).

(** [print(line)]; the terminal is taken to accept every line. *)
Definition print (line : string) : prog unit :=
  fun w => ({| zip_file := zip_file w; fs := fs w; stdout := stdout w ++ [line] |},
            Normal tt).

Definition sys_exit {A} (msg : string) : prog A :=
  fun w => (w, SystemExit msg).

(** [try: body except C1 as e: h1 ... except Cn as e: hn]: the first clause
    whose class test accepts the exception handles it. *)
Definition try_except {A} (body : prog A)
    (clauses : list ((exn -> bool) * (exn -> prog A))) : prog A :=
  fun w =>
    match body w with
    | (w', Exc e) =>
        match List.find (fun c => c.1 e) clauses with
        | Some c => c.2 e w'
        | None => (w', Exc e)
        end
    | r => r
    end.

Section FileOperations.

Variable os : OS.

(** [open(path, 'rb').read()]. *)
Definition read_file (path : string) : prog bytes :=
  fun w =>
    match os_read os path with
    | Some e => (w, Exc e)
    | None =>
        match fs_lookup path (fs w) with
        | Some (File data) => (w, Normal data)
        | Some Dir => (w, Exc (Raise OSError ("[Errno 21] Is a directory: " +:+ path)))
        | None => (w, Exc (Raise OSError ("[Errno 2] No such file or directory: " +:+ path)))
        end
    end.

(** Open a path for writing, write [data], close. *)
Definition write_file (path : string) (data : bytes) : prog unit :=
  fun w =>
    match fs_lookup path (fs w) with
    | Some Dir => (w, Exc (Raise OSError ("[Errno 21] Is a directory: " +:+ path)))
    | _ =>
        match os_write os path data with
        | None => (set_fs w (fs_store path (File data) (fs w)), Normal tt)
        | Some (e, None) => (w, Exc e)
        | Some (e, Some partial) =>
            (set_fs w (fs_store path (File partial) (fs w)), Exc e)
        end
    end.

(** [path.unlink()]. *)
Definition unlink (path : string) : prog unit :=
  fun w =>
    match os_unlink os path with
    | Some e => (w, Exc e)
    | None =>
        match fs_lookup path (fs w) with
        | Some (File _) => (set_fs w (fs_remove path (fs w)), Normal tt)
        | Some Dir => (w, Exc (Raise OSError ("[Errno 21] Is a directory: " +:+ path)))
        | None => (w, Exc (Raise OSError ("[Errno 2] No such file or directory: " +:+ path)))
        end
    end.

(** [path.mkdir(exist_ok=True)] for a directory below [output_dir]. *)
Definition mkdir_exist_ok (path : string) : prog unit :=
  fun w =>
    match os_mkdir os path with
    | Some e => (w, Exc e)
    | None =>
        match fs_lookup path (fs w) with
        | Some Dir => (w, Normal tt)
        | Some (File _) =>
            (w, Exc (Raise FileExistsError ("[Errno 17] File exists: " +:+ path)))
        | None => (set_fs w (fs_store path Dir (fs w)), Normal tt)
        end
    end.

(** [zf.extractall(path, pwd=pwd)]: the members are extracted by name, in
    archive order; each is read with the password and written below the
    target directory ([prefix] is empty for [output_dir] itself).  The first
    exception stops the loop; what was written stays.  Member names are
    taken as they are: the sanitising of absolute and dotted names and
    directory members are not modelled. *)
Fixpoint extract_members (zf : pyzipper.AESZipFile) (prefix : string)
    (pwd : bytes) (members : list string) : prog unit :=
  match members with
  | [] => pret tt
  | member :: rest =>
      info <~ lift (match pyzipper.getinfo zf member with
                    | Some info => ok info
                    | None => raise KeyError
                                ("There is no item named " +:+ member +:+ " in the archive")
                    end);
      data <~ lift (pyzipper.read info pwd);
      write_file (prefix +:+ member) data;;
      extract_members zf prefix pwd rest
  end.

Definition extractall (zf : pyzipper.AESZipFile) (prefix : string) (pwd : bytes)
    : prog unit :=
  extract_members zf prefix pwd (pyzipper.namelist zf).

End FileOperations.

(** The table in [main] from compression codes to their names. *)
Definition compress_names : gmap Z string :=
  {[ 0%Z := "stored (no compression)";
     8%Z := "deflate";
     12%Z := "bzip2";
     14%Z := "lzma";
     93%Z := "zstandard";
     99%Z := "AES encrypted" ]}.

(** [compress_names.get(compress_type, f"unknown ({compress_type})")]. *)
Definition compress_name (compress_type : Z) : string :=
  default ("unknown (" +:+ pretty compress_type +:+ ")")
          (compress_names !! compress_type).

(** A path outside [output_dir]: the directory it lies in ([zip_path.parent],
    ["."] for a bare relative name) and its name. *)
Record Path := { parent : string; name : string }.

(** [str(zip_path)]. *)
Definition path_str (p : Path) : string := pathlib.joinpath (parent p) (name p).

(** [zip_path.parent / zip_path.stem], the directory the backup is unpacked
    into. *)
Definition output_dir_of (zip_path : Path) : string :=
  pathlib.joinpath (parent zip_path) (pathlib.stem (name zip_path)).

(** What the operator types at the three [getpass] prompts. *)
Record Operator := {
  zip_password : string;
  encryption_password : string;
  attachments_password : string;
}.

Section Pipeline.
Context {L : Libraries}.

(** The operating system and the operator of one run. *)
Variable os : OS.
Variable operator : Operator.

(** [zip_path.is_file()]: true when a regular file is there; where none is
    seen it is false, unless [stat] failed with an error that pathlib does
    not take for absence: that error is raised. *)
Definition is_file (zip_path : Path) : prog bool :=
  fun w =>
    match zip_file w with
    | Some _ => (w, Normal true)
    | None =>
        match os_stat os (path_str zip_path) with
        | Some e => (w, Exc e)
        | None => (w, Normal false)
        end
    end.

(** [pyzipper.AESZipFile(zip_path)]. *)
Definition open_backup (zip_path : Path) : prog pyzipper.AESZipFile :=
  fun w =>
    match os_read os (path_str zip_path), zip_file w with
    | Some e, _ => (w, Exc e)
    | None, Some data => lift (AESZipFile_open data) w
    | None, None =>
        (w, Exc (Raise OSError ("[Errno 2] No such file or directory: "
                                +:+ path_str zip_path)))
    end.

(** [pyzipper.AESZipFile(attachments_zip)], a file below [output_dir]. *)
Definition open_attachments (attachments_zip : string) : prog pyzipper.AESZipFile :=
  data <~ read_file os attachments_zip;
  lift (AESZipFile_open data).

(** [output_dir.mkdir(exist_ok=True)]: an absent directory and an empty one
    both have the empty listing. *)
Definition mkdir_output_dir (output_dir : string) : prog unit :=
  fun w =>
    match os_mkdir os output_dir with
    | Some e => (w, Exc e)
    | None => (w, Normal tt)
    end.

(** Part 1 of [main], "Extract all files from the main backup ZIP": the
    suite of its [try], then the statement with its [except Exception]. *)
Definition extract_suite (zip_path : Path) (output_dir : string) (zip_pwd : bytes)
    : prog unit :=
  zf <~ open_backup zip_path;
  match pyzipper.namelist zf with
  | [] => pret tt
  | first :: _ =>
      info <~ lift (match pyzipper.getinfo zf first with
                    | Some info => ok info
                    | None => raise KeyError
                                ("There is no item named " +:+ first
                                 +:+ " in the archive")
                    end);
      let compress_type := pyzipper.compress_type info in
      print ("📦 ZIP compression method: " +:+ compress_name compress_type)
  end;;
  extractall os zf EmptyString zip_pwd;;
  print ("✅ Extracted " +:+ pretty (length (pyzipper.namelist zf))
         +:+ " file(s) to: " +:+ output_dir).

Definition main_extract (zip_path : Path) (output_dir : string) (zip_pwd : bytes)
    : prog unit :=
  print "📦 Extracting backup ZIP...";;
  try_except (extract_suite zip_path output_dir zip_pwd)
    [(is_Exception,
      fun e => sys_exit ("❌ ZIP extraction failed: " +:+ exn_msg e))].

(** Part 2 of [main], "Find and decrypt the JSON file". *)
Definition decrypt_suite (output_dir : string) (enc_pwd : string) (json_file : string)
    : prog unit :=
  encrypted_blob <~ read_file os json_file;
  plaintext <~ lift (decrypt_blob encrypted_blob enc_pwd);
  data <~ lift (json_loads plaintext);
  let decrypted_json := pathlib.stem json_file +:+ "_decrypted.json" in
  write_file os decrypted_json (json_dump data);;
  print "✅ Successfully decrypted backup!";;
  print ("📄 Decrypted JSON saved to: " +:+ output_dir +:+ "/" +:+ decrypted_json);;
  unlink os json_file.

Definition main_decrypt (output_dir : string) (enc_pwd : string) : prog unit :=
  json_files <~ (fun w => (w, Normal (glob "*.json" (fs w))));
  match json_files with
  | [] => sys_exit "❌ No JSON file found in extracted backup"
  | json_file :: _ =>
      print (NL +:+ "🔓 Decrypting " +:+ json_file +:+ "...");;
      try_except (decrypt_suite output_dir enc_pwd json_file)
        [(is_Exception,
          fun e => sys_exit ("❌ Decryption failed: " +:+ exn_msg e))]
  end.

(** Part 3 of [main], "Look for and extract attachments ZIP". *)
Definition attachments_suite (output_dir attachments_zip attachments_dir : string)
    (attach_pwd : bytes) : prog unit :=
  zf <~ open_attachments attachments_zip;
  print ("📦 Extracting " +:+ pretty (length (pyzipper.namelist zf))
         +:+ " attachment(s)...");;
  extractall os zf (attachments_dir +:+ "/") attach_pwd;;
  print "✅ Successfully extracted attachments!";;
  print ("📁 Attachments saved to: " +:+ output_dir +:+ "/" +:+ attachments_dir);;
  unlink os attachments_zip.

Definition main_attachments (output_dir : string) : prog unit :=
  attachments_zips <~ (fun w => (w, Normal (glob "attachments_*.zip" (fs w))));
  match attachments_zips with
  | attachments_zip :: _ =>
      print (NL +:+ "📎 Found attachments ZIP: " +:+ attachments_zip);;
      let attach_pwd := encode (attachments_password operator) in
      match attach_pwd with
      | _ :: _ =>
          let attachments_dir := pathlib.stem attachments_zip in
          mkdir_exist_ok os attachments_dir;;
          try_except
            (attachments_suite output_dir attachments_zip attachments_dir attach_pwd)
            [(is_RuntimeError,
              fun e =>
                if contains "Bad password" (exn_msg e)
                then print "❌ Incorrect attachments password"
                else print ("❌ Attachments extraction failed: " +:+ exn_msg e));
             (is_Exception,
              fun e => print ("❌ Attachments extraction failed: " +:+ exn_msg e))]
      | [] => print "⏭️  Skipping attachments extraction"
      end
  | [] => print (NL +:+ "ℹ️  No attachments ZIP found in backup")
  end;;
  print (NL +:+ "✨ All done! Everything saved to: " +:+ output_dir).

Definition main (zip_path : Path) : prog unit :=
  file <~ is_file zip_path;
  if negb file then sys_exit ("❌ File not found: " +:+ path_str zip_path)
  else
    let zip_pwd := encode (zip_password operator) in
    let enc_pwd := encryption_password operator in
    let output_dir := output_dir_of zip_path in
    mkdir_output_dir output_dir;;
    main_extract zip_path output_dir zip_pwd;;
    main_decrypt output_dir enc_pwd;;
    main_attachments output_dir.

End Pipeline.

(** ** Stand-ins for the primitives

    Small executable primitives with the shape of the real ones, on which the
    script can be run inside Rocq.  The theorems below hold for every
    primitive; these only provide concrete runs. *)

Module Sample.

(** The hash refuses a salt shorter than Argon2 allows and otherwise fills
    [hash_len] bytes from the secret and the salt. *)
Definition hash (secret salt : bytes) (time_cost memory_cost parallelism : Z)
    (hash_len : nat) (type : argon2.Type_) : result bytes :=
  if (length salt <? argon2.ARGON2_MIN_SALT_LENGTH)%nat
  then raise HashingError "Salt is too short"
  else ok (take hash_len (secret ++ salt ++ replicate hash_len x00)).

(** The block function mixes the first key byte into the reversed block. *)
Definition block (key data : bytes) : bytes :=
  map (fun b => cryptography.byte_xor b (nth 0 key x00)) (rev data).

(** JSON values are kept as their text; a document must open with a brace. *)
Definition loads (s : bytes) : result bytes :=
  match s with
  | "{"%byte :: _ => ok s
  | _ => raise JSONDecodeError "Expecting value: line 1 column 1 (char 0)"
  end.

Definition bytes_eqb (a b : bytes) : bool :=
  bool_decide (map Byte.to_N a = map Byte.to_N b).

(** A member that one password opens. *)
Definition member (name : string) (method : Z) (password : string) (content : bytes)
    : pyzipper.ZipInfo :=
  {| pyzipper.filename := name;
     pyzipper.compress_type := method;
     pyzipper.read := fun pwd =>
       if bytes_eqb pwd (encode password) then ok content
       else raise RuntimeError ("Bad password for file '" +:+ name +:+ "'") |}.

Definition salt : bytes := encode "0123456789abcdef".
Definition iv : bytes := encode "fedcba9876543210".
Definition plaintext : bytes := encode "{}".

(** The key that "enc-pw" and [salt] derive, the bytes of a backup made with
    it, and its blob. *)
Definition key : bytes := take 32 (encode "enc-pw" ++ salt ++ replicate 32 x00).

Definition decoded : bytes :=
  salt ++ iv ++ cryptography.AES_CFB_encrypt block key iv plaintext.

Definition blob : bytes := base64.urlsafe_b64encode decoded.

(** A blob that decodes to twenty bytes. *)
Definition short_blob : bytes := encode "AAAAAAAAAAAAAAAAAAAAAAAAAAA=".

(** A backup archive with its payload and a nested attachments archive, and
    the attachments archive itself. *)
Definition attachments_archive : pyzipper.AESZipFile :=
  {| pyzipper.filelist := [member "photo.png" 99 "att-pw" (encode "PNG")] |}.

Definition backup_archive : pyzipper.AESZipFile :=
  {| pyzipper.filelist :=
       [member "bw-backup.json" 99 "zip-pw" blob;
        member "attachments_2024.zip" 0 "zip-pw" (encode "PK attachments")] |}.

Definition open_zip (data : bytes) : result pyzipper.AESZipFile :=
  if bytes_eqb data (encode "PK backup") then ok backup_archive
  else if bytes_eqb data (encode "PK attachments") then ok attachments_archive
  else raise BadZipFile "File is not a zip file".

Definition libraries : Libraries :=
  {| hash_secret_raw := hash;
     AES_encrypt := block;
     JSON := bytes;
     json_loads := loads;
     json_dump := fun data => data;
     AESZipFile_open := open_zip |}.

(** An operating system that refuses nothing. *)
Definition os : OS :=
  {| os_read := fun _ => None;
     os_write := fun _ _ => None;
     os_unlink := fun _ => None;
     os_mkdir := fun _ => None;
     os_stat := fun _ => None |}.

Definition zip_path : Path := {| parent := "/home/user"; name := "bw-backup.zip" |}.

Definition world : World :=
  {| zip_file := Some (encode "PK backup"); fs := []; stdout := [] |}.

(** The operator knows the first two passwords and types [attachments_pw] at
    the third prompt; [intruder] does not know the first. *)
Definition operator (attachments_pw : string) : Operator :=
  {| zip_password := "zip-pw";
     encryption_password := "enc-pw";
     attachments_password := attachments_pw |}.

Definition intruder : Operator :=
  {| zip_password := "guess";
     encryption_password := "enc-pw";
     attachments_password := EmptyString |}.

(** A directory in which the enumeration yields [b.json] before [a.json]. *)
Definition two_payloads : World :=
  {| zip_file := Some (encode "PK backup");
     fs := [("b.json", File blob); ("a.json", File blob)];
     stdout := [] |}.

(** The world after part 1 and after part 2 of a run with the right
    passwords. *)
Definition extracted : World :=
  (main_extract (L := libraries) os zip_path (output_dir_of zip_path)
     (encode "zip-pw") world).1.

Definition decrypted : World :=
  (main_decrypt (L := libraries) os (output_dir_of zip_path) "enc-pw" extracted).1.

End Sample.

(** ** Auxiliary definitions of the proofs *)

(** Every byte, in order; every six-bit value. *)
Definition all_bytes : bytes := map (fun n => base64.to_uchar (N.of_nat n)) (seq 0 256).

Definition sextets : list N := map N.of_nat (seq 0 64).

(** What the URL-safe decoder sees of the character that the URL-safe encoder
    writes for a six-bit value. *)
Definition wire (s : N) : byte :=
  base64._urlsafe_decode_translation (base64._urlsafe_encode_translation (base64.b2a s)).

(** The four six-bit values that the encoder cuts out of three bytes. *)
Definition hi6 (a : N) : N := N.shiftr a 2.
Definition mid1 (a b : N) : N := N.lor (N.shiftl (N.land a 3) 4) (N.shiftr b 4).
Definition mid2 (b c : N) : N := N.lor (N.shiftl (N.land b 15) 2) (N.shiftr c 6).
Definition lo6 (c : N) : N := N.land c 63.

(** A program only adds to what is printed. *)
Definition extends {A} (m : prog A) : Prop :=
  forall w w' o, m w = (w', o) -> exists lines, stdout w' = stdout w ++ lines.

(** ** The entry point of the script

    The suite of [if __name__ == "__main__":].  [sys.argv] holds the name of
    the script and then its arguments; how [Path(...)] splits the argument
    into a directory and a name is left open. *)

Definition usage : string := "Usage: ./decrypt_lazywarden.py <backup‑zip>".

Section Script.
Context {L : Libraries}.
Variable os : OS.
Variable operator : Operator.
Variable Path_of : string -> Path.

Definition script (argv : list string) : prog unit :=
  if negb (length argv =? 2)%nat then sys_exit usage
  else main os operator (Path_of (nth 1 argv EmptyString)).

End Script.

(** ** Further stand-ins: backups without attachments *)

Module Plain.

(** An archive that holds the payload alone, and one without members. *)
Definition payload_archive : pyzipper.AESZipFile :=
  {| pyzipper.filelist := [Sample.member "bw-backup.json" 99 "zip-pw" Sample.blob] |}.

Definition empty_archive : pyzipper.AESZipFile := {| pyzipper.filelist := [] |}.

Definition open_zip (data : bytes) : result pyzipper.AESZipFile :=
  if Sample.bytes_eqb data (encode "PK payload") then ok payload_archive
  else if Sample.bytes_eqb data (encode "PK empty") then ok empty_archive
  else Sample.open_zip data.

Definition libraries : Libraries :=
  {| hash_secret_raw := Sample.hash;
     AES_encrypt := Sample.block;
     JSON := bytes;
     json_loads := Sample.loads;
     json_dump := fun data => data;
     AESZipFile_open := open_zip |}.

Definition world : World :=
  {| zip_file := Some (encode "PK payload"); fs := []; stdout := [] |}.

Definition empty_world : World :=
  {| zip_file := Some (encode "PK empty"); fs := []; stdout := [] |}.

(** [Path(arg)] for an argument in pathlib's normal form: the text up to
    the last slash (the root when nothing stands before it) and the text
    after it; ["."] and the argument itself when there is no slash. *)
Fixpoint split_last_slash (s : string) : option (string * string) :=
  match s with
  | EmptyString => None
  | String c rest =>
      match split_last_slash rest with
      | Some (d, n) => Some (String c d, n)
      | None => if Ascii.eqb c "/"%char then Some (EmptyString, rest) else None
      end
  end.

Definition Path_of (arg : string) : Path :=
  match split_last_slash arg with
  | Some (d, n) =>
      {| parent := if String.eqb d EmptyString then "/" else d; name := n |}
  | None => {| parent := "."; name := arg |}
  end.

End Plain.

(** A directory where a regular file has the name that the attachments
    directory would take. *)
Definition name_taken : World :=
  {| zip_file := Some (encode "PK backup");
     fs := [("attachments_2024", File (encode "note"));
            ("attachments_2024.zip", File (encode "PK attachments"))];
     stdout := [] |}.

(** A member name that [extractall] takes as it is: a single component other
    than ["."] and [".."], so neither a directory entry (a name that ends
    with a slash) nor a name that is sanitised before it is joined to the
    target directory. *)
Definition plain_name (member : string) : bool :=
  pathlib.is_child member
  && negb (String.eqb member EmptyString)
  && negb (String.eqb member ".")
  && negb (String.eqb member "..").

(** The characters that the URL-safe decoder looks at: the padding
    character and the characters that have a value after the URL-safe
    translation.  Every other byte is passed over. *)
Definition base64_significant (c : byte) : bool :=
  Byte.eqb (base64._urlsafe_decode_translation c) base64.BASE64_PAD
  || match base64.table_a2b_base64 (base64._urlsafe_decode_translation c) with
     | Some _ => true
     | None => false
     end.

(** A program that never ends in [SystemExit]: it completes or raises. *)
Definition never_exits {A} (m : prog A) : Prop :=
  forall w w' msg, m w <> (w', SystemExit msg).

(** A file at [zip_path] that is no ZIP archive, and a directory whose
    attachments archive is no ZIP archive. *)
Definition not_a_zip : World :=
  {| zip_file := Some (encode "plain text"); fs := []; stdout := [] |}.

Definition broken_attachments : World :=
  {| zip_file := Some (encode "PK backup");
     fs := [("attachments_2024.zip", File (encode "damaged"))];
     stdout := [] |}.

(** * Proofs *)

(** ** Enumeration of bytes and of six-bit values *)

(** A property that a boolean test establishes on every byte, on every pair
    of bytes, or on every six-bit value holds of each: the arithmetic facts
    about the alphabet and about the regrouping of bits below are checked by
    running through all cases. *)
Lemma all_bytes_nth (b : byte) : nth (Byte.to_nat b) all_bytes x00 = b.
Proof. destruct b; vm_compute; reflexivity. Qed.

Lemma all_bytes_In (b : byte) : In b all_bytes.
Proof.
  rewrite <- (all_bytes_nth b). apply nth_In.
  destruct b; vm_compute; lia.
Qed.

Lemma byte_forall (P : byte -> bool) :
  forallb P all_bytes = true -> forall b, P b = true.
Proof. intros H b. rewrite forallb_forall in H. apply H, all_bytes_In. Qed.

Lemma byte_forall2 (P : byte -> byte -> bool) :
  forallb (fun a => forallb (P a) all_bytes) all_bytes = true ->
  forall a b, P a b = true.
Proof.
  intros H a b. apply (byte_forall (P a)). revert a. apply byte_forall. exact H.
Qed.

Lemma sextet_forall (P : N -> bool) :
  forallb P sextets = true -> forall s, (s < 64)%N -> P s = true.
Proof.
  intros H s Hs. rewrite forallb_forall in H. apply H.
  unfold sextets. apply in_map_iff. exists (N.to_nat s). split; [lia|].
  apply in_seq. lia.
Qed.

(** ** [base64]: decoding what was encoded *)

Section Base64Facts.
Import base64.

(** An encoded character is no pad, and the decoding table gives back its
    value. *)
Lemma wire_value s : (s < 64)%N ->
  Byte.eqb (wire s) BASE64_PAD = false /\ table_a2b_base64 (wire s) = Some s.
Proof.
  intros Hs.
  pose proof (sextet_forall
    (fun s => negb (Byte.eqb (wire s) BASE64_PAD)
              && bool_decide (table_a2b_base64 (wire s) = Some s))) as H.
  specialize (H ltac:(vm_compute; reflexivity) s Hs).
  apply andb_true_iff in H as [H1 H2].
  apply negb_true_iff in H1. apply bool_decide_eq_true in H2. done.
Qed.

Lemma wire_pad :
  _urlsafe_decode_translation (_urlsafe_encode_translation BASE64_PAD) = BASE64_PAD.
Proof. reflexivity. Qed.

(** What the encoder feeds to its alphabet has six bits. *)
Lemma sextet_bounds (a b : byte) :
  (hi6 (Byte.to_N a) < 64 /\ mid1 (Byte.to_N a) (Byte.to_N b) < 64
   /\ mid2 (Byte.to_N a) (Byte.to_N b) < 64 /\ lo6 (Byte.to_N a) < 64
   /\ N.shiftl (N.land (Byte.to_N a) 3) 4 < 64
   /\ N.shiftl (N.land (Byte.to_N a) 15) 2 < 64)%N.
Proof.
  pose proof (byte_forall2 (fun a b =>
    let a := Byte.to_N a in let b := Byte.to_N b in
    (hi6 a <? 64)%N && (mid1 a b <? 64)%N && (mid2 a b <? 64)%N && (lo6 a <? 64)%N
    && (N.shiftl (N.land a 3) 4 <? 64)%N && (N.shiftl (N.land a 15) 2 <? 64)%N)) as H.
  specialize (H ltac:(vm_compute; reflexivity) a b). cbv zeta in H.
  repeat (apply andb_true_iff in H as [H ?]).
  repeat match goal with H : (_ <? _)%N = true |- _ => apply N.ltb_lt in H end.
  tauto.
Qed.

(** The decoder's shifts and masks undo those of the encoder. *)
Lemma regroup (a b : byte) :
  let x := Byte.to_N a in let y := Byte.to_N b in
  N.shiftr (mid1 x y) 4 = N.land x 3
  /\ N.shiftr (N.shiftl (N.land x 3) 4) 4 = N.land x 3
  /\ N.land (mid1 x y) 15 = N.shiftr y 4
  /\ N.shiftr (mid2 x y) 2 = N.land x 15
  /\ N.shiftr (N.shiftl (N.land x 15) 2) 2 = N.land x 15
  /\ N.land (mid2 x y) 3 = N.shiftr y 6
  /\ to_uchar (N.lor (N.shiftl (hi6 x) 2) (N.land x 3)) = a
  /\ to_uchar (N.lor (N.shiftl (N.shiftr x 4) 4) (N.land x 15)) = a
  /\ to_uchar (N.lor (N.shiftl (N.shiftr x 6) 6) (lo6 x)) = a.
Proof.
  pose proof (byte_forall2 (fun a b =>
    let x := Byte.to_N a in let y := Byte.to_N b in
    (N.shiftr (mid1 x y) 4 =? N.land x 3)%N
    && (N.shiftr (N.shiftl (N.land x 3) 4) 4 =? N.land x 3)%N
    && (N.land (mid1 x y) 15 =? N.shiftr y 4)%N
    && (N.shiftr (mid2 x y) 2 =? N.land x 15)%N
    && (N.shiftr (N.shiftl (N.land x 15) 2) 2 =? N.land x 15)%N
    && (N.land (mid2 x y) 3 =? N.shiftr y 6)%N
    && (Byte.to_N (to_uchar (N.lor (N.shiftl (hi6 x) 2) (N.land x 3))) =? x)%N
    && (Byte.to_N (to_uchar (N.lor (N.shiftl (N.shiftr x 4) 4) (N.land x 15))) =? x)%N
    && (Byte.to_N (to_uchar (N.lor (N.shiftl (N.shiftr x 6) 6) (lo6 x))) =? x)%N)) as H.
  specialize (H ltac:(vm_compute; reflexivity) a b). cbv zeta in *.
  repeat (apply andb_true_iff in H as [H ?]).
  repeat match goal with H : (_ =? _)%N = true |- _ => apply N.eqb_eq in H end.
  repeat match goal with
         | H : Byte.to_N _ = Byte.to_N _ |- _ =>
             apply (f_equal Byte.of_N) in H; rewrite !Byte.of_to_N in H;
             injection H as H
         end.
  tauto.
Qed.

(** The decoding loop on one full group of four characters, and on the two
    padded last groups. *)
Lemma a2b_loop_quad (v1 v2 v3 v4 : N) rest out :
  (v1 < 64 -> v2 < 64 -> v3 < 64 -> v4 < 64 ->
  a2b_loop (wire v1 :: wire v2 :: wire v3 :: wire v4 :: rest) 0 0 0 out
  = a2b_loop rest 0 0 0
      (out ++ [to_uchar (N.lor (N.shiftl v1 2) (N.shiftr v2 4));
               to_uchar (N.lor (N.shiftl (N.land v2 15) 4) (N.shiftr v3 2));
               to_uchar (N.lor (N.shiftl (N.land v3 3) 6) v4)]))%N.
Proof.
  intros H1 H2 H3 H4.
  destruct (wire_value v1 H1) as [P1 T1], (wire_value v2 H2) as [P2 T2],
    (wire_value v3 H3) as [P3 T3], (wire_value v4 H4) as [P4 T4].
  cbn [a2b_loop]. rewrite P1, T1, P2, T2, P3, T3, P4, T4.
  by rewrite <- !app_assoc.
Qed.

Lemma a2b_loop_pad2 (v1 v2 : N) out :
  (v1 < 64 -> v2 < 64 ->
  a2b_loop [wire v1; wire v2; BASE64_PAD; BASE64_PAD] 0 0 0 out
  = ok (out ++ [to_uchar (N.lor (N.shiftl v1 2) (N.shiftr v2 4))]))%N.
Proof.
  intros H1 H2.
  destruct (wire_value v1 H1) as [P1 T1], (wire_value v2 H2) as [P2 T2].
  cbn [a2b_loop]. rewrite P1, T1, P2, T2. reflexivity.
Qed.

Lemma a2b_loop_pad1 (v1 v2 v3 : N) out :
  (v1 < 64 -> v2 < 64 -> v3 < 64 ->
  a2b_loop [wire v1; wire v2; wire v3; BASE64_PAD] 0 0 0 out
  = ok (out ++ [to_uchar (N.lor (N.shiftl v1 2) (N.shiftr v2 4));
                to_uchar (N.lor (N.shiftl (N.land v2 15) 4) (N.shiftr v3 2))]))%N.
Proof.
  intros H1 H2 H3.
  destruct (wire_value v1 H1) as [P1 T1], (wire_value v2 H2) as [P2 T2],
    (wire_value v3 H3) as [P3 T3].
  cbn [a2b_loop]. rewrite P1, T1, P2, T2, P3, T3.
  by rewrite <- !app_assoc.
Qed.

(** Induction three elements at a time, as the encoder recurses. *)
Lemma list_ind3 {A} (P : list A -> Prop) :
  P [] -> (forall a, P [a]) -> (forall a b, P [a; b]) ->
  (forall a b c l, P l -> P (a :: b :: c :: l)) ->
  forall l, P l.
Proof.
  intros H0 H1 H2 H3.
  fix IH 1. intros [|a [|b [|c l]]]; [exact H0 | exact (H1 a) | exact (H2 a b) |].
  apply H3, IH.
Qed.

(** Decoding an encoding appends the data to what was already written. *)
Lemma a2b_b2a (data out : bytes) :
  a2b_loop (map _urlsafe_decode_translation
              (map _urlsafe_encode_translation (b2a_base64 data))) 0 0 0 out
  = ok (out ++ data).
Proof.
  revert out. induction data as [|a|a b|a b c l IH] using list_ind3; intros out.
  - cbn. by rewrite app_nil_r.
  - destruct (sextet_bounds a a) as (B1 & _ & _ & _ & B5 & _).
    destruct (regroup a a) as (_ & R2 & _ & _ & _ & _ & R7 & _).
    cbn [b2a_base64 map]. rewrite wire_pad.
    change (_urlsafe_decode_translation (_urlsafe_encode_translation (b2a ?s))) with (wire s).
    rewrite a2b_loop_pad2 by assumption. unfold hi6 in *. by rewrite R2, R7.
  - destruct (sextet_bounds a b) as (B1 & B2 & _ & _ & _ & _).
    destruct (sextet_bounds b b) as (_ & _ & _ & _ & _ & B6).
    destruct (regroup a b) as (R1 & _ & R3 & _ & _ & _ & R7 & _).
    destruct (regroup b b) as (_ & _ & _ & _ & R5 & _ & _ & R8 & _).
    cbn [b2a_base64 map]. rewrite wire_pad.
    change (_urlsafe_decode_translation (_urlsafe_encode_translation (b2a ?s))) with (wire s).
    rewrite a2b_loop_pad1 by assumption. unfold hi6, mid1 in *.
    by rewrite R1, R3, R5, R7, R8.
  - destruct (sextet_bounds a b) as (B1 & B2 & _ & _ & _ & _).
    destruct (sextet_bounds b c) as (_ & _ & B3 & _ & _ & _).
    destruct (sextet_bounds c c) as (_ & _ & _ & B4 & _ & _).
    destruct (regroup a b) as (R1 & _ & R3 & _ & _ & _ & R7 & _).
    destruct (regroup b c) as (_ & _ & _ & R4 & _ & R6 & _ & R8 & _).
    destruct (regroup c c) as (_ & _ & _ & _ & _ & _ & _ & _ & R9).
    cbn [b2a_base64 map].
    change (_urlsafe_decode_translation (_urlsafe_encode_translation (b2a ?s))) with (wire s).
    rewrite a2b_loop_quad by assumption. unfold hi6, mid1, mid2, lo6 in *.
    rewrite R1, R3, R4, R6, R7, R8, R9, IH. by rewrite <- app_assoc.
Qed.

(** [urlsafe_b64decode(urlsafe_b64encode(data)) == data]. *)
Lemma urlsafe_b64_roundtrip (data : bytes) :
  urlsafe_b64decode (urlsafe_b64encode data) = ok data.
Proof. apply (a2b_b2a data []). Qed.

End Base64Facts.

(** ** [cryptography]: CFB deciphers what it enciphered *)

Section CFBFacts.
Import cryptography.

(** Combining twice with the same keystream byte gives the byte back. *)
Lemma byte_xor_cancel (k p : byte) : byte_xor k (byte_xor k p) = p.
Proof.
  unfold byte_xor. rewrite Byte.to_bits_of_bits.
  rewrite <- (Byte.of_bits_to_bits p) at 2. f_equal.
  destruct (Byte.to_bits k) as (k0 & k1 & k2 & k3 & k4 & k5 & k6 & k7).
  destruct (Byte.to_bits p) as (p0 & p1 & p2 & p3 & p4 & p5 & p6 & p7).
  cbn. by rewrite <- !xorb_assoc, !xorb_nilpotent, !xorb_false_l.
Qed.

Variable block_encrypt : bytes -> bytes -> bytes.

(** From any state of the register, deciphering what was enciphered gives
    the input back and leaves the same register and position. *)
Lemma cfb128_decrypt_encrypt (pt key ivec : bytes) (num : nat) :
  cfb128_decrypt block_encrypt key ivec num (cfb128_encrypt block_encrypt key ivec num pt).2
  = ((cfb128_encrypt block_encrypt key ivec num pt).1, pt).
Proof.
  revert ivec num. induction pt as [|p pt IH]; intros ivec num; [done|].
  cbn [cfb128_encrypt].
  set (iv := if (num =? 0)%nat then block_encrypt key ivec else ivec).
  set (o := byte_xor (nth num iv x00) p).
  specialize (IH (<[num:=o]> iv) (S num mod 16)).
  destruct (cfb128_encrypt block_encrypt key (<[num:=o]> iv) (S num mod 16) pt)
    as [[iv' n'] out] eqn:E.
  cbn [fst snd cfb128_decrypt] in *. fold iv.
  rewrite IH. subst o. by rewrite byte_xor_cancel.
Qed.

(** Deciphering keeps the length. *)
Lemma cfb128_decrypt_length (ct key ivec : bytes) (num : nat) :
  length (cfb128_decrypt block_encrypt key ivec num ct).2 = length ct.
Proof.
  revert ivec num. induction ct as [|c ct IH]; intros ivec num; [done|].
  cbn [cfb128_decrypt].
  set (iv := <[num:=c]> _). specialize (IH iv (S num mod 16)).
  destruct (cfb128_decrypt block_encrypt key iv (S num mod 16) ct) as [[iv' n'] out].
  cbn in *. by rewrite IH.
Qed.
End CFBFacts.

(** ** The error monad *)

Lemma bind_ok {A B} (a : A) (k : A -> result B) : bind (ok a) k = k a.
Proof. reflexivity. Qed.

Lemma bind_inl {A B} (e : exn) (k : A -> result B) : bind (inl e) k = inl e.
Proof. reflexivity. Qed.

(** ** The stand-in hash honours the contract of Argon2 *)

Lemma Sample_returns_hash_len : argon2.returns_hash_len Sample.hash.
Proof.
  intros secret salt t m p n ty key. unfold Sample.hash.
  destruct (_ <? _)%nat; [done|]. intros [= <-].
  rewrite length_take, !length_app, length_replicate. lia.
Qed.

Lemma Sample_accepts_salt16 : argon2.accepts_salt16 Sample.hash.
Proof.
  intros secret salt Hs. unfold Sample.hash. rewrite Hs. cbn. eauto.
Qed.

(** ** [derive_key] and [decrypt_blob] *)

Section CodecFacts.
Import cryptography.

Context {L : Libraries}.

Lemma algorithms_AES_32 (key : bytes) :
  length key = 32 -> algorithms_AES key = ok {| AES_key := key |}.
Proof. intros H. unfold algorithms_AES. rewrite H. reflexivity. Qed.

Lemma mk_Cipher_16 (a : AES) (iv : bytes) :
  length iv = 16 ->
  mk_Cipher a (modes_CFB iv) = ok {| algorithm := a; mode := modes_CFB iv |}.
Proof. intros H. unfold mk_Cipher. cbn. rewrite H. reflexivity. Qed.

Lemma mk_Cipher_not_16 (a : AES) (iv : bytes) :
  length iv <> 16 ->
  mk_Cipher a (modes_CFB iv)
  = raise ValueError ("Invalid IV size (" +:+ pretty (length iv) +:+ ") for CFB.").
Proof.
  intros H. unfold mk_Cipher. cbn. rewrite bool_decide_eq_false_2; [done|].
  unfold block_size. lia.
Qed.

(** The value of [decrypt_blob] once the blob decodes to at least 32 bytes
    and a key of 32 bytes is derived: the CFB decryption of the bytes after
    the first 32, under that key and the IV in bytes 16 to 31. *)
Lemma decrypt_blob_value (blob data key : bytes) (pw : string) :
  base64.urlsafe_b64decode blob = ok data ->
  32 <= length data ->
  derive_key pw (take 16 data) = ok key ->
  length key = 32 ->
  decrypt_blob blob pw
  = ok (AES_CFB_decrypt AES_encrypt key (take 16 (drop 16 data)) (drop 32 data)).
Proof.
  intros Hd Hl Hk Hk32. unfold decrypt_blob.
  rewrite Hd, bind_ok. cbv zeta. rewrite Hk, bind_ok.
  rewrite algorithms_AES_32, bind_ok by done.
  rewrite mk_Cipher_16, bind_ok by (rewrite length_take, length_drop; lia).
  unfold update, finalize, decryptor, AES_CFB_decrypt. cbn.
  destruct (cfb128_decrypt _ _ _ _ _) as [[iv' n'] out]. cbn.
  by rewrite app_nil_r.
Qed.

(** C1. Round trip: for every 16-byte salt, 16-byte IV, plaintext and
    passphrase, the key that [derive_key] derives from the passphrase and the
    salt exists, and [decrypt_blob] applied with the same passphrase to
    base64url(salt || iv || AES-CFB-encrypt(key, iv, plaintext)) returns
    exactly the plaintext.  The Argon2 hash is any function that honours its
    contract; the AES block function is arbitrary. *)
Theorem decrypt_blob_roundtrip
    (Hlen : argon2.returns_hash_len hash_secret_raw)
    (Hsalt : argon2.accepts_salt16 hash_secret_raw)
    (salt iv plaintext : bytes) (pw : string) :
  length salt = 16 ->
  length iv = 16 ->
  exists key,
    derive_key pw salt = ok key
    /\ decrypt_blob
         (base64.urlsafe_b64encode
            (salt ++ iv ++ AES_CFB_encrypt AES_encrypt key iv plaintext))
         pw
       = ok plaintext.
Proof.
  intros Hs Hi. destruct (Hsalt (encode pw) salt Hs) as [key Hk].
  exists key. split; [exact Hk|].
  set (data := salt ++ iv ++ AES_CFB_encrypt AES_encrypt key iv plaintext).
  assert (take 16 data = salt) as Htake.
  { unfold data. by rewrite take_app_length'. }
  assert (drop 16 data = iv ++ AES_CFB_encrypt AES_encrypt key iv plaintext) as Hrest.
  { unfold data. by rewrite drop_app_length'. }
  rewrite (decrypt_blob_value _ data key).
  - rewrite Hrest, take_app_length' by done.
    replace (drop 32 data) with (AES_CFB_encrypt AES_encrypt key iv plaintext).
    + unfold AES_CFB_decrypt, AES_CFB_encrypt.
      by rewrite cfb128_decrypt_encrypt.
    + change 32 with (16 + 16). by rewrite <- drop_drop, Hrest, drop_app_length'.
  - apply urlsafe_b64_roundtrip.
  - unfold data. rewrite !length_app. lia.
  - by rewrite Htake.
  - by apply Hlen in Hk.
Qed.

(** C2, as the script has it.  A blob whose base64url decoding succeeds with
    fewer than 32 bytes makes [decrypt_blob] raise, never return; what it
    raises is the exception of the library call that first rejects a
    truncated field: the one of the Argon2 hash when the hash refuses the
    salt, otherwise [ValueError] with the cipher constructor's complaint
    about the size of the IV.  No distinguished error is involved. *)
Theorem decrypt_blob_short_blob_raises
    (Hlen : argon2.returns_hash_len hash_secret_raw)
    (blob data : bytes) (pw : string) :
  base64.urlsafe_b64decode blob = ok data ->
  length data < 32 ->
  exists e,
    decrypt_blob blob pw = inl e
    /\ (derive_key pw (take 16 data) = inl e
        \/ e = Raise ValueError
                 ("Invalid IV size (" +:+ pretty (length data - 16) +:+ ") for CFB.")).
Proof.
  intros Hd Hl. unfold decrypt_blob. rewrite Hd, bind_ok. cbv zeta.
  destruct (derive_key pw (take 16 data)) as [e|key] eqn:Hk.
  - exists e. rewrite bind_inl. auto.
  - rewrite bind_ok, algorithms_AES_32, bind_ok by (by apply Hlen in Hk).
    rewrite mk_Cipher_not_16 by (rewrite length_take, length_drop; lia).
    eexists. split; [reflexivity|]. right. unfold raise. do 3 f_equal.
    rewrite length_take, length_drop. f_equal. lia.
Qed.

(** C5.  For every blob whose base64url decoding succeeds with at least 32
    bytes and for every passphrase, right or wrong, [decrypt_blob] returns a
    byte sequence (as long as the ciphertext) and raises nothing: deciphering
    gives no sign of a wrong passphrase.  The Argon2 hash is any function
    that honours its contract. *)
Theorem decrypt_blob_never_signals_wrong_passphrase
    (Hlen : argon2.returns_hash_len hash_secret_raw)
    (Hsalt : argon2.accepts_salt16 hash_secret_raw)
    (blob data : bytes) (pw : string) :
  base64.urlsafe_b64decode blob = ok data ->
  32 <= length data ->
  exists plaintext,
    decrypt_blob blob pw = ok plaintext
    /\ length plaintext = length data - 32.
Proof.
  intros Hd Hl.
  destruct (Hsalt (encode pw) (take 16 data)) as [key Hk].
  { rewrite length_take. lia. }
  eexists. split.
  - apply decrypt_blob_value; [done | done | exact Hk | by apply Hlen in Hk].
  - unfold AES_CFB_decrypt. by rewrite cfb128_decrypt_length, length_drop.
Qed.

(** C10.  [decrypt_blob] makes two decryptors, one for [update] and a fresh
    one for [finalize].  [finalize] on a fresh CFB decryptor returns the
    empty byte string, so on every blob and passphrase the script returns (or
    raises) what the usual formulation with a single decryptor does. *)
Theorem decrypt_blob_two_decryptors :
  (forall cipher,
      finalize (decryptor cipher)
      = ok ({| ctx_key := AES_key (algorithm cipher);
               ctx_ivec := initialization_vector (mode cipher);
               ctx_num := 0; ctx_finalized := true |}, []))
  /\ (forall blob pw,
        decrypt_blob blob pw
        = decrypt_blob_single_decryptor blob pw).
Proof.
  split; [reflexivity|].
  intros blob pw. unfold decrypt_blob, decrypt_blob_single_decryptor.
  destruct (base64.urlsafe_b64decode blob) as [e|data]; [done|].
  rewrite !bind_ok. cbv zeta.
  destruct (derive_key _ _) as [e|key]; [done|]. rewrite !bind_ok.
  destruct (algorithms_AES key) as [e|aes]; [done|]. rewrite !bind_ok.
  destruct (mk_Cipher aes _) as [e|cipher]; [done|]. rewrite !bind_ok.
  unfold update, decryptor.
  cbn [ctx_finalized ctx_key ctx_ivec ctx_num].
  destruct (cfb128_decrypt _ _ _ _ _) as [[iv' n'] out].
  reflexivity.
Qed.

End CodecFacts.


(** ** Strings and names *)

Lemma append_inv_head (p s t : string) : p +:+ s = p +:+ t -> s = t.
Proof. apply String.app_inj. Qed.

Lemma append_length (s t : string) :
  String.length (s +:+ t) = String.length s + String.length t.
Proof. induction s as [|c s IH]; simpl; [done|]. by f_equal. Qed.

Lemma append_assoc (s t u : string) : (s +:+ t) +:+ u = s +:+ t +:+ u.
Proof.
  induction s as [|c s IH]; [done|].
  change (String c ((s +:+ t) +:+ u) = String c (s +:+ t +:+ u)). by rewrite IH.
Qed.

Lemma prefix_append (s t : string) : String.prefix s (s +:+ t) = true.
Proof.
  induction s as [|c s IH]; simpl; [by destruct t|].
  destruct (ascii_dec c c); [done | congruence].
Qed.

Lemma contains_prefix (needle haystack : string) :
  String.prefix needle haystack = true -> contains needle haystack = true.
Proof. intros H. destruct haystack; cbn [contains]; by rewrite H. Qed.

Lemma contains_append (needle s t : string) :
  contains needle (s +:+ needle +:+ t) = true.
Proof.
  induction s as [|c s IH].
  - change ("" +:+ needle +:+ t) with (needle +:+ t).
    apply contains_prefix, prefix_append.
  - change (String c s +:+ needle +:+ t) with (String c (s +:+ needle +:+ t)).
    cbn [contains]. rewrite IH. apply orb_true_r.
Qed.

(** Where [rfind] finds a dot, the name splits into what [stem] keeps, the
    dot, and the rest. *)
Lemma rfind_dot_split (name : string) (i j : nat) :
  pathlib.rfind_dot name i = Some j ->
  i <= j /\ exists rest,
    name = String.substring 0 (j - i) name +:+ String "." rest.
Proof.
  revert i. induction name as [|c r IH]; intros i; cbn [pathlib.rfind_dot]; [done|].
  destruct (pathlib.rfind_dot r (S i)) as [j'|] eqn:E.
  - intros [= ->]. destruct (IH _ E) as [Hle [rest Hr]]. split; [lia|].
    exists rest. replace (j - i) with (S (j - S i)) by lia.
    change (String c r = String c (String.substring 0 (j - S i) r +:+ String "." rest)).
    by rewrite <- Hr.
  - destruct (Ascii.eqb c ".") eqn:Ec; [|done]. intros [= ->].
    apply Ascii.eqb_eq in Ec as ->. split; [lia|]. exists r.
    by rewrite Nat.sub_diag.
Qed.

(** The name of the decrypted output is never the name of the payload it
    comes from, so writing the one and deleting the other do not meet. *)
Lemma stem_decrypted_ne (name : string) :
  pathlib.stem name +:+ "_decrypted.json" <> name.
Proof.
  assert (forall n : string, n +:+ "_decrypted.json" <> n) as Hlen.
  { intros n H. apply (f_equal String.length) in H. rewrite append_length in H.
    cbn in H. lia. }
  unfold pathlib.stem. destruct (pathlib.rfind_dot name 0) as [i|] eqn:E; [|apply Hlen].
  destruct (_ && _); [|apply Hlen].
  destruct (rfind_dot_split _ _ _ E) as [_ [rest Hr]]. rewrite Nat.sub_0_r in Hr.
  intros H. rewrite Hr in H at 2. by apply append_inv_head in H.
Qed.

(** ** The file system *)

Lemma fs_lookup_store_eq path n fs : fs_lookup path (fs_store path n fs) = Some n.
Proof.
  induction fs as [|[p m] fs IH]; cbn.
  - by rewrite String.eqb_refl.
  - destruct (String.eqb p path) eqn:E; cbn; by rewrite E.
Qed.

Lemma fs_lookup_store_ne path q n fs :
  path <> q -> fs_lookup q (fs_store path n fs) = fs_lookup q fs.
Proof.
  intros Hne. induction fs as [|[p m] fs IH]; cbn.
  - by apply String.eqb_neq in Hne as ->.
  - destruct (String.eqb p path) eqn:E; cbn.
    + apply String.eqb_eq in E as ->. by apply String.eqb_neq in Hne as ->.
    + by rewrite IH.
Qed.

Lemma fs_lookup_remove_eq path fs : fs_lookup path (fs_remove path fs) = None.
Proof.
  induction fs as [|[p m] fs IH]; cbn; [done|].
  destruct (String.eqb p path) eqn:E; cbn; [done | by rewrite E].
Qed.

Lemma fs_lookup_remove_ne path q fs :
  path <> q -> fs_lookup q (fs_remove path fs) = fs_lookup q fs.
Proof.
  intros Hne. induction fs as [|[p m] fs IH]; cbn; [done|].
  destruct (String.eqb p path) eqn:E; cbn.
  - apply String.eqb_eq in E as ->. by apply String.eqb_neq in Hne as ->.
  - by rewrite IH.
Qed.

(** What [glob] yields is a direct child that matches and that the listing
    holds. *)
Lemma glob_In pattern fs path :
  In path (glob pattern fs) ->
  pathlib.is_child path = true /\ pathlib.fnmatch pattern path = true
  /\ exists n, fs_lookup path fs = Some n.
Proof.
  unfold glob. rewrite in_map_iff. intros [[p n] [<- Hin]].
  apply filter_In in Hin as [Hin Hm]. cbn in *.
  apply andb_true_iff in Hm as [? ?]. repeat split; [done..|].
  clear -Hin. induction fs as [|[q m] fs IH]; [done|]. cbn.
  destruct (String.eqb q p) eqn:E; [eauto|].
  destruct Hin as [[= -> ->]|Hin]; [by rewrite String.eqb_refl in E | auto].
Qed.

(** The first name that [glob] yields is the first matching entry in
    enumeration order. *)
Lemma glob_head pattern fs path rest :
  glob pattern fs = path :: rest ->
  exists before n after,
    fs = before ++ (path, n) :: after /\ glob pattern before = [].
Proof.
  unfold glob. induction fs as [|[p n] fs IH]; [done|]. cbn [List.filter].
  destruct (_ && _) eqn:E.
  - cbn. intros [= -> _]. by exists [], n, fs.
  - intros H. destruct (IH H) as (before & m & after & -> & Hb).
    exists ((p, n) :: before), m, after. split; [done|].
    cbn [List.filter]. by rewrite E.
Qed.

(** ** Programs only add to what is printed *)

(** Every statement of the script prints or leaves [stdout] alone; none
    takes a line back. *)
Lemma extends_pret {A} (a : A) : extends (pret a).
Proof. intros w w' o [= <- <-]. exists []. by rewrite app_nil_r. Qed.

Lemma extends_pure {A} (f : World -> outcome A) : extends (fun w => (w, f w)).
Proof. intros w w' o [= <- <-]. exists []. by rewrite app_nil_r. Qed.

Lemma extends_lift {A} (r : result A) : extends (lift r).
Proof. apply (extends_pure (fun _ => _)). Qed.

Lemma extends_sys_exit {A} (msg : string) : extends (@sys_exit A msg).
Proof. apply (extends_pure (fun _ => _)). Qed.

Lemma extends_print (line : string) : extends (print line).
Proof. intros w w' o [= <- <-]. by exists [line]. Qed.

Lemma extends_pbind {A B} (m : prog A) (k : A -> prog B) :
  extends m -> (forall a, extends (k a)) -> extends (pbind m k).
Proof.
  intros Hm Hk w w' o. unfold pbind. destruct (m w) as [w1 [a|e|msg]] eqn:E;
    destruct (Hm _ _ _ E) as [l1 H1].
  - intros H. destruct (Hk _ _ _ _ H) as [l2 H2]. exists (l1 ++ l2).
    by rewrite H2, H1, app_assoc.
  - intros [= <- <-]. eauto.
  - intros [= <- <-]. eauto.
Qed.

Lemma extends_try_except {A} (body : prog A) clauses :
  extends body -> Forall (fun c => forall e, extends (c.2 e)) clauses ->
  extends (try_except body clauses).
Proof.
  intros Hb Hc w w' o. unfold try_except.
  destruct (body w) as [w1 [a|e|msg]] eqn:E; destruct (Hb _ _ _ E) as [l1 H1].
  - intros [= <- <-]. eauto.
  - destruct (find _ clauses) as [c|] eqn:F.
    + apply find_some in F as [Hin _]. rewrite List.Forall_forall in Hc.
      intros H. destruct (Hc c Hin e _ _ _ H) as [l2 H2]. exists (l1 ++ l2).
      by rewrite H2, H1, app_assoc.
    + intros [= <- <-]. eauto.
  - intros [= <- <-]. eauto.
Qed.

Lemma extends_fs_only {A} (m : prog A) :
  (forall w, stdout (m w).1 = stdout w) -> extends m.
Proof.
  intros H w w' o E. exists []. rewrite app_nil_r, <- (H w). by rewrite E.
Qed.

Lemma extends_read_file os path : extends (read_file os path).
Proof. apply extends_fs_only. intros w. unfold read_file. by repeat case_match. Qed.

Lemma extends_write_file os path data : extends (write_file os path data).
Proof. apply extends_fs_only. intros w. unfold write_file. by repeat case_match. Qed.

Lemma extends_unlink os path : extends (unlink os path).
Proof. apply extends_fs_only. intros w. unfold unlink. by repeat case_match. Qed.

Lemma extends_mkdir_exist_ok os path : extends (mkdir_exist_ok os path).
Proof. apply extends_fs_only. intros w. unfold mkdir_exist_ok. by repeat case_match. Qed.

Lemma extends_extract_members os zf prefix pwd members :
  extends (extract_members os zf prefix pwd members).
Proof.
  induction members as [|m members IH]; cbn [extract_members].
  - apply extends_pret.
  - repeat (apply extends_pbind; [|intros ?]);
      auto using extends_lift, extends_write_file.
Qed.

Lemma extends_extractall os zf prefix pwd : extends (extractall os zf prefix pwd).
Proof. apply extends_extract_members. Qed.

Create HintDb extends.
#[export] Hint Resolve extends_pret extends_lift extends_sys_exit extends_print
  extends_read_file extends_write_file extends_unlink extends_mkdir_exist_ok
  extends_extractall : extends.

Ltac solve_extends :=
  repeat first
    [ apply extends_pbind; [|intros ?]
    | apply extends_try_except; [|repeat constructor; cbn; intros ?]
    | progress auto with extends
    | apply (extends_pure (fun _ => _))
    | match goal with |- extends (match ?x with _ => _ end) => destruct x end
    | match goal with |- extends (if ?x then _ else _) => destruct x end ].

(** ** The parts of [main] *)

(** A statement that completes hands over to the next. *)
Lemma pbind_normal {A B} (m : prog A) (k : A -> prog B) (w w1 : World) (a : A) :
  m w = (w1, Normal a) -> pbind m k w = k a w1.
Proof. intros H. unfold pbind. by rewrite H. Qed.

Section PipelineFacts.
Context {L : Libraries}.
Variable os : OS.
Variable operator : Operator.

(** How the suite of part 2 can end: it completes, and then the blob was read,
    decrypted and parsed, the output written in full, and the payload removed
    last; or it raises, and then the file system is as it was, up to a
    (possibly partial) output file. *)
Lemma decrypt_suite_inv (output_dir enc_pwd json_file : string) (w w' : World)
    (o : outcome unit) :
  decrypt_suite os output_dir enc_pwd json_file w = (w', o) ->
  let decrypted_json := pathlib.stem json_file +:+ "_decrypted.json" in
  (o = Normal tt
   /\ exists blob plaintext data,
       fs_lookup json_file (fs w) = Some (File blob)
       /\ decrypt_blob blob enc_pwd = ok plaintext
       /\ json_loads plaintext = ok data
       /\ os_write os decrypted_json (json_dump data) = None
       /\ fs w' = fs_remove json_file
                   (fs_store decrypted_json (File (json_dump data)) (fs w)))
  \/ ((exists e, o = Exc e)
      /\ (fs w' = fs w
          \/ exists content, fs w' = fs_store decrypted_json (File content) (fs w))).
Proof.
  intros H. cbv zeta.
  unfold decrypt_suite, pbind, read_file, lift, write_file, print, unlink, set_fs in H.
  repeat (case_match; simplify_eq/=); eauto 10.
  all: left; split; [done|]; eauto 10.
Qed.

(** [main] past its file check. *)
Lemma main_unfold (zip_path : Path) (w : World) (data : bytes) :
  zip_file w = Some data ->
  main os operator zip_path w
  = (let output_dir := output_dir_of zip_path in
     mkdir_output_dir os output_dir;;
     main_extract os zip_path output_dir (encode (zip_password operator));;
     main_decrypt os output_dir (encryption_password operator);;
     main_attachments os operator output_dir) w.
Proof. intros H. unfold main, is_file. unfold pbind at 1. by rewrite H. Qed.

Lemma main_decrypt_unfold (output_dir enc_pwd json_file : string) rest (w : World) :
  glob "*.json" (fs w) = json_file :: rest ->
  main_decrypt os output_dir enc_pwd w
  = (print (NL +:+ "🔓 Decrypting " +:+ json_file +:+ "...");;
     try_except
       (decrypt_suite os output_dir enc_pwd json_file)
       [(is_Exception, fun e => sys_exit ("❌ Decryption failed: " +:+ exn_msg e))]) w.
Proof. intros H. unfold main_decrypt. unfold pbind at 1. by rewrite H. Qed.

(** C4.  The encrypted payload is deleted only after the decrypted output has
    been written in full.  For a run of part 2 of [main] on the payload
    [json_file] that [glob] yields first:
    - if the payload is gone afterwards, then its blob was decrypted and
      parsed, the operating system let the whole output through, the output
      file holds exactly the serialised data, and the part completed;
    - if the part did not complete (a failure while reading, decrypting,
      parsing, writing or deleting), the payload is still what it was;
    - if the part completed, the payload is gone. *)
Theorem payload_deleted_only_after_output_written
    (output_dir enc_pwd json_file : string) (rest : list string)
    (w w' : World) (o : outcome unit) :
  glob "*.json" (fs w) = json_file :: rest ->
  main_decrypt os output_dir enc_pwd w = (w', o) ->
  (fs_lookup json_file (fs w') = None ->
   exists blob plaintext data,
     fs_lookup json_file (fs w) = Some (File blob)
     /\ decrypt_blob blob enc_pwd = ok plaintext
     /\ json_loads plaintext = ok data
     /\ os_write os (pathlib.stem json_file +:+ "_decrypted.json") (json_dump data) = None
     /\ fs_lookup (pathlib.stem json_file +:+ "_decrypted.json") (fs w')
        = Some (File (json_dump data))
     /\ o = Normal tt)
  /\ (o <> Normal tt -> fs_lookup json_file (fs w') = fs_lookup json_file (fs w))
  /\ (o = Normal tt -> fs_lookup json_file (fs w') = None)
  /\ (forall (zip_path : Path) (w0 w1 : World) (data : bytes),
        output_dir = output_dir_of zip_path ->
        enc_pwd = encryption_password operator ->
        zip_file w0 = Some data ->
        mkdir_output_dir os output_dir w0 = (w1, Normal tt) ->
        main_extract os zip_path output_dir (encode (zip_password operator)) w1
        = (w, Normal tt) ->
        o <> Normal tt ->
        main os operator zip_path w0 = (w', o)).
Proof.
  intros Hglob Hrun.
  assert (forall (zip_path : Path) (w0 w1 : World) (data : bytes),
            output_dir = output_dir_of zip_path ->
            enc_pwd = encryption_password operator ->
            zip_file w0 = Some data ->
            mkdir_output_dir os output_dir w0 = (w1, Normal tt) ->
            main_extract os zip_path output_dir (encode (zip_password operator)) w1
            = (w, Normal tt) ->
            o <> Normal tt ->
            main os operator zip_path w0 = (w', o)) as Hmain.
  { intros zip_path w0 w1 data -> -> Hfile Hmk Hex Ho.
    rewrite (main_unfold _ _ _ Hfile). cbv zeta.
    unfold pbind at 1. rewrite Hmk. unfold pbind at 1. rewrite Hex.
    unfold pbind at 1. rewrite Hrun. by destruct o as [[]| |]. }
  assert (exists n, fs_lookup json_file (fs w) = Some n) as [n Hn].
  { apply (glob_In "*.json"). rewrite Hglob. by left. }
  pose proof (stem_decrypted_ne json_file) as Hne.
  rewrite (main_decrypt_unfold _ _ _ _ _ Hglob) in Hrun.
  unfold pbind, print, try_except in Hrun. cbn [fst snd] in Hrun.
  destruct (decrypt_suite _ _ _ _ _) as [w1 o1] eqn:Hs.
  apply decrypt_suite_inv in Hs as [[-> Hok]|[[e ->] Hfs]]; cbn [fs] in *.
  - destruct Hok as (blob & plaintext & data & Hb & Hd & Hj & Hw & Hfs).
    injection Hrun as <- <-. rewrite Hfs.
    rewrite fs_lookup_remove_eq, fs_lookup_remove_ne, fs_lookup_store_eq by done.
    split; [|done]. intros _. exists blob, plaintext, data. done.
  - assert (fs_lookup json_file (fs w1) = Some n) as Hsame.
    { destruct Hfs as [->|[content ->]]; [done|]. by rewrite fs_lookup_store_ne. }
    assert (fs w' = fs w1 /\ o <> Normal tt) as [Hw' Ho].
    { cbn [find fst snd] in Hrun. destruct (is_Exception e);
        cbn in Hrun; by injection Hrun as <- <-. }
    rewrite Hw', Hsame, Hn. done.
Qed.

(** C3, as the script has it.  When [output_dir] holds one or more candidate
    payloads, part 2 of [main] does not fail for that: it takes the candidate
    that comes first in the order in which the directory is enumerated (no
    candidate stands before it in the listing), announces it, and never exits
    with the "no JSON file" message.  Nothing sorts the candidates.  The
    candidate taken is the one that is processed:
    - when the part completes, it is the blob of this candidate that was
      decrypted and parsed, the output named after this candidate holds the
      serialised data, and this candidate is the file removed;
    - whatever happens, every other path, the other candidates among them,
      holds afterwards what it held;
    - the other candidates cannot make the part fail: when this candidate can
      be read, decrypts and parses, and its output can be written and the
      candidate deleted, the part completes. *)
Theorem main_decrypt_selects_first_enumerated
    (output_dir enc_pwd json_file : string) (rest : list string) (w : World) :
  glob "*.json" (fs w) = json_file :: rest ->
  (exists before n after,
     fs w = before ++ (json_file, n) :: after /\ glob "*.json" before = [])
  /\ (exists lines,
       stdout (main_decrypt os output_dir enc_pwd w).1
       = stdout w ++ (NL +:+ "🔓 Decrypting " +:+ json_file +:+ "...") :: lines)
  /\ (main_decrypt os output_dir enc_pwd w).2
     <> SystemExit "❌ No JSON file found in extracted backup"
  /\ ((main_decrypt os output_dir enc_pwd w).2 = Normal tt ->
      exists blob plaintext data,
        fs_lookup json_file (fs w) = Some (File blob)
        /\ decrypt_blob blob enc_pwd = ok plaintext
        /\ json_loads plaintext = ok data
        /\ fs (main_decrypt os output_dir enc_pwd w).1
           = fs_remove json_file
               (fs_store (pathlib.stem json_file +:+ "_decrypted.json")
                  (File (json_dump data)) (fs w)))
  /\ (forall other,
        other <> json_file ->
        other <> pathlib.stem json_file +:+ "_decrypted.json" ->
        fs_lookup other (fs (main_decrypt os output_dir enc_pwd w).1)
        = fs_lookup other (fs w))
  /\ (forall blob plaintext data,
        fs_lookup json_file (fs w) = Some (File blob) ->
        os_read os json_file = None ->
        decrypt_blob blob enc_pwd = ok plaintext ->
        json_loads plaintext = ok data ->
        fs_lookup (pathlib.stem json_file +:+ "_decrypted.json") (fs w) <> Some Dir ->
        os_write os (pathlib.stem json_file +:+ "_decrypted.json") (json_dump data)
        = None ->
        os_unlink os json_file = None ->
        (main_decrypt os output_dir enc_pwd w).2 = Normal tt).
Proof.
  intros Hglob. split; [by eapply glob_head|].
  set (w1 := {| zip_file := zip_file w; fs := fs w;
                stdout := stdout w
                          ++ [NL +:+ "🔓 Decrypting " +:+ json_file +:+ "..."] |}).
  assert (main_decrypt os output_dir enc_pwd w
          = try_except (decrypt_suite os output_dir enc_pwd json_file)
              [(is_Exception,
                fun e => sys_exit ("❌ Decryption failed: " +:+ exn_msg e))] w1)
    as -> by (by rewrite (main_decrypt_unfold _ _ _ _ _ Hglob)).
  destruct (try_except _ _ w1) as [w' o] eqn:Hrun. cbn [fst snd].
  assert (exists o',
             decrypt_suite os output_dir enc_pwd json_file w1 = (w', o')
             /\ (o = Normal tt <-> o' = Normal tt)
             /\ o <> SystemExit "❌ No JSON file found in extracted backup")
    as (o' & Hs & Ho & Hno).
  { unfold try_except in Hrun.
    destruct (decrypt_suite _ _ _ _ _) as [w2 [[]|e|msg]] eqn:Hs.
    - injection Hrun as <- <-. by eexists.
    - cbn [find fst snd] in Hrun. destruct (is_Exception e); cbn in Hrun;
        injection Hrun as <- <-; eexists; (split; [done|]); by split.
    - apply decrypt_suite_inv in Hs as [[? _]|[[e ?] _]]; done. }
  split; [|split; [done|]].
  - assert (extends (decrypt_suite os output_dir enc_pwd json_file)) as Hext
      by (unfold decrypt_suite; solve_extends).
    destruct (Hext _ _ _ Hs) as [lines Hl]. exists lines.
    rewrite Hl. subst w1. cbn [stdout]. by rewrite <- app_assoc.
  - pose proof (decrypt_suite_inv _ _ _ _ _ _ Hs) as Hinv. cbv zeta in Hinv.
    cbn [fs w1] in Hinv. split; [|split].
    + intros Hn. apply Ho in Hn as ->.
      destruct Hinv as [(_ & blob & plaintext & data & ? & ? & ? & _ & ?)|[[e ?] _]];
        [|done].
      by exists blob, plaintext, data.
    + intros other Hj Hd.
      destruct Hinv as [(_ & ? & ? & ? & _ & _ & _ & _ & Hfs)|[_ [Hfs|[? Hfs]]]];
        rewrite Hfs.
      * by rewrite fs_lookup_remove_ne, fs_lookup_store_ne.
      * done.
      * by rewrite fs_lookup_store_ne.
    + intros blob plaintext data Hl Hr Hd Hp Hdir Hw Hu. apply Ho.
      pose proof (stem_decrypted_ne json_file) as Hne.
      assert (exists w2,
                 decrypt_suite os output_dir enc_pwd json_file w1 = (w2, Normal tt))
        as [w2 Hrun2].
      { unfold decrypt_suite.
        erewrite pbind_normal;
          [|unfold read_file; rewrite Hr; cbn [fs w1]; by rewrite Hl].
        erewrite pbind_normal; [|unfold lift; by rewrite Hd].
        erewrite pbind_normal; [|unfold lift; by rewrite Hp].
        erewrite pbind_normal; cycle 1.
        { unfold write_file. cbn [fs w1]. rewrite Hw.
          destruct (fs_lookup (pathlib.stem json_file +:+ "_decrypted.json") (fs w))
            as [[?|]|] eqn:Ed; [reflexivity | congruence | reflexivity]. }
        rewrite (pbind_normal _ _ _ _ tt eq_refl).
        rewrite (pbind_normal _ _ _ _ tt eq_refl).
        unfold unlink. rewrite Hu. cbn [print set_fs fs].
        rewrite fs_lookup_store_ne, Hl by done. eauto. }
      rewrite Hrun2 in Hs. by injection Hs.
Qed.

(** C7.  When parts 1 and 2 of a run have completed, the directory holds an
    attachments archive and the operator answers the attachments prompt with
    the empty password, [main] skips the extraction: it returns (exit status
    zero), the file system is what part 2 left, the archive is still there,
    and the run ends with the "found", "skipping" and "all done" lines. *)
Theorem empty_attachments_password_skips
    (zip_path : Path) (data : bytes) (w0 w1 w2 w : World)
    (attachments_zip : string) (rest : list string) :
  zip_file w0 = Some data ->
  mkdir_output_dir os (output_dir_of zip_path) w0 = (w1, Normal tt) ->
  main_extract os zip_path (output_dir_of zip_path) (encode (zip_password operator)) w1
  = (w2, Normal tt) ->
  main_decrypt os (output_dir_of zip_path) (encryption_password operator) w2
  = (w, Normal tt) ->
  glob "attachments_*.zip" (fs w) = attachments_zip :: rest ->
  attachments_password operator = EmptyString ->
  exists w',
    main os operator zip_path w0 = (w', Normal tt)
    /\ exit_status (main os operator zip_path w0).2 = 0%Z
    /\ fs w' = fs w
    /\ (exists n, fs_lookup attachments_zip (fs w') = Some n)
    /\ stdout w'
       = stdout w
         ++ [NL +:+ "📎 Found attachments ZIP: " +:+ attachments_zip;
             "⏭️  Skipping attachments extraction";
             NL +:+ "✨ All done! Everything saved to: " +:+ output_dir_of zip_path].
Proof.
  intros Hfile H1 H2 H3 Hglob Hpw.
  set (w' := {| zip_file := zip_file w; fs := fs w;
                stdout := stdout w
                  ++ [NL +:+ "📎 Found attachments ZIP: " +:+ attachments_zip;
                      "⏭️  Skipping attachments extraction";
                      NL +:+ "✨ All done! Everything saved to: "
                      +:+ output_dir_of zip_path] |}).
  assert (main os operator zip_path w0 = (w', Normal tt)) as Hmain.
  { rewrite (main_unfold _ _ _ Hfile). cbv zeta.
    unfold pbind at 1. rewrite H1. unfold pbind at 1. rewrite H2.
    unfold pbind at 1. rewrite H3.
    unfold main_attachments. unfold pbind at 1 2. rewrite Hglob, Hpw.
    cbn. unfold w', print. cbn [zip_file fs stdout]. by rewrite <- !app_assoc. }
  exists w'. rewrite Hmain. repeat split.
  apply (glob_In "attachments_*.zip" (fs w)). rewrite Hglob. by left.
Qed.

(** What the suite of part 3 writes lies below the attachments directory, so
    unless it completes (and removes the archive) the archive is as it was. *)
Lemma extract_members_keeps zf (dir : string) pwd members (path : string)
    (w w' : World) (o : outcome unit) :
  pathlib.is_child path = true ->
  extract_members os zf (dir +:+ "/") pwd members w = (w', o) ->
  fs_lookup path (fs w') = fs_lookup path (fs w).
Proof.
  intros Hchild. revert w. induction members as [|m members IH]; intros w.
  - by intros [= <- <-].
  - cbn [extract_members]. unfold pbind, lift, write_file, set_fs.
    assert ((dir +:+ "/") +:+ m <> path) as Hne.
    { intros <-. unfold pathlib.is_child in Hchild.
      by rewrite append_assoc, contains_append in Hchild. }
    intros H. repeat (case_match; simplify_eq/=); try done;
      match goal with
      | H : extract_members _ _ _ _ _ _ = _ |- _ =>
          apply IH in H; cbn [fs] in H; rewrite H
      | _ => idtac
      end; by rewrite ?fs_lookup_store_ne.
Qed.

Lemma attachments_suite_keeps (output_dir attachments_zip dir : string) pwd
    (w w' : World) (o : outcome unit) :
  pathlib.is_child attachments_zip = true ->
  attachments_suite os output_dir attachments_zip dir pwd w = (w', o) ->
  o <> Normal tt ->
  fs_lookup attachments_zip (fs w') = fs_lookup attachments_zip (fs w).
Proof.
  intros Hchild H Ho.
  unfold attachments_suite, open_attachments, extractall in H.
  unfold pbind, read_file, lift, print, unlink, set_fs in H.
  repeat (case_match; simplify_eq/=); try done;
    match goal with
    | H : extract_members _ _ _ _ _ _ = _ |- _ =>
        apply (extract_members_keeps _ _ _ _ attachments_zip) in H; [|done];
        cbn [fs] in H; by rewrite H
    end.
Qed.

(** C8.  A refused password is not fatal on the nested archive and is fatal
    on the outer one.
    - Nested: when the directory holds an attachments archive, the operator
      gives a non-empty attachments password, the attachments directory is
      made, and the suite that opens and extracts the archive raises
      [RuntimeError] with "Bad password" in its message, part 3 of [main]
      reports "Incorrect attachments password", still prints "All done" and
      returns (status zero); the archive is not deleted: it holds what it
      held.
    - Outer: when the suite that opens and extracts the backup raises the
      same error, [main] stops there with [sys.exit("ZIP extraction failed:
      ...")], status one; parts 2 and 3 do not run. *)
Theorem attachments_bad_password_not_fatal (zip_path : Path) (output_dir : string) :
  (forall (w w1 w2 : World) (attachments_zip : string) (rest : list string) (e : exn),
      glob "attachments_*.zip" (fs w) = attachments_zip :: rest ->
      encode (attachments_password operator) <> [] ->
      (print (NL +:+ "📎 Found attachments ZIP: " +:+ attachments_zip);;
       mkdir_exist_ok os (pathlib.stem attachments_zip)) w = (w1, Normal tt) ->
      attachments_suite os output_dir attachments_zip
        (pathlib.stem attachments_zip) (encode (attachments_password operator)) w1
      = (w2, Exc e) ->
      exn_cls e = RuntimeError ->
      contains "Bad password" (exn_msg e) = true ->
      main_attachments os operator output_dir w
      = ({| zip_file := zip_file w2; fs := fs w2;
            stdout := stdout w2
              ++ ["❌ Incorrect attachments password";
                  NL +:+ "✨ All done! Everything saved to: " +:+ output_dir] |},
         Normal tt)
      /\ exit_status (main_attachments os operator output_dir w).2 = 0%Z
      /\ fs_lookup attachments_zip (fs w2) = fs_lookup attachments_zip (fs w)
      /\ exists n, fs_lookup attachments_zip (fs w2) = Some n)
  /\ (forall (w0 w1 w2 : World) (data : bytes) (e : exn),
        zip_file w0 = Some data ->
        mkdir_output_dir os (output_dir_of zip_path) w0 = (w1, Normal tt) ->
        (print "📦 Extracting backup ZIP...";;
         extract_suite os zip_path (output_dir_of zip_path)
           (encode (zip_password operator))) w1 = (w2, Exc e) ->
        exn_cls e = RuntimeError ->
        contains "Bad password" (exn_msg e) = true ->
        main os operator zip_path w0
        = (w2, SystemExit ("❌ ZIP extraction failed: " +:+ exn_msg e))
        /\ exit_status (main os operator zip_path w0).2 = 1%Z).
Proof.
  split.
  - intros w w1 w2 a rest e Hglob Hpw Hmk Hsuite Hcls Hmsg.
    destruct (glob_In "attachments_*.zip" (fs w) a) as (Hchild & _ & n & Hn).
    { rewrite Hglob. by left. }
    assert (fs_lookup a (fs w1) = fs_lookup a (fs w)) as Hw1.
    { unfold pbind, print, mkdir_exist_ok, set_fs in Hmk.
      repeat (case_match; simplify_eq/=); try done.
      apply fs_lookup_store_ne. intros Heq. congruence. }
    assert (main_attachments os operator output_dir w
            = ({| zip_file := zip_file w2; fs := fs w2;
                  stdout := stdout w2
                    ++ ["❌ Incorrect attachments password";
                        NL +:+ "✨ All done! Everything saved to: " +:+ output_dir] |},
               Normal tt)) as Hmain.
    { unfold main_attachments. unfold pbind at 1 2. rewrite Hglob.
      destruct (encode (attachments_password operator)) as [|b pw] eqn:Hb; [done|].
      unfold pbind at 1 in Hmk. unfold pbind at 1 2.
      cbn [print] in Hmk |- *.
      rewrite Hmk. unfold try_except. rewrite Hsuite.
      cbn [find fst snd]. unfold is_RuntimeError. rewrite Hcls. cbn [fst snd].
      rewrite Hmsg.
      unfold print. cbn [zip_file fs stdout]. by rewrite <- app_assoc. }
    rewrite Hmain. repeat split.
    + rewrite <- Hw1. by eapply attachments_suite_keeps.
    + exists n. rewrite <- Hn, <- Hw1. by eapply attachments_suite_keeps.
  - intros w0 w1 w2 data e Hfile Hmk Hsuite Hcls Hmsg.
    assert (main os operator zip_path w0
            = (w2, SystemExit ("❌ ZIP extraction failed: " +:+ exn_msg e))) as Hmain.
    { rewrite (main_unfold _ _ _ Hfile). cbv zeta.
      unfold pbind at 1. rewrite Hmk. unfold pbind at 1.
      unfold main_extract. unfold pbind at 1 in Hsuite. unfold pbind at 1.
      cbn [print] in Hsuite |- *.
      unfold try_except. rewrite Hsuite.
      cbn [find fst snd]. unfold is_Exception. rewrite Hcls. reflexivity. }
    by rewrite Hmain.
Qed.



End PipelineFacts.

(** ** Runs on the stand-ins *)

(** C1 on the stand-ins: the blob of the sample backup decrypts to its
    plaintext. *)
Lemma decrypt_blob_roundtrip_witness :
  length Sample.salt = 16
  /\ length Sample.iv = 16
  /\ exists key,
      derive_key (L := Sample.libraries) "enc-pw" Sample.salt = ok key
      /\ decrypt_blob (L := Sample.libraries)
           (base64.urlsafe_b64encode
              (Sample.salt ++ Sample.iv
               ++ cryptography.AES_CFB_encrypt Sample.block key Sample.iv
                    Sample.plaintext))
           "enc-pw"
         = ok Sample.plaintext.
Proof.
  split; [reflexivity|]. split; [reflexivity|].
  apply (decrypt_blob_roundtrip (L := Sample.libraries)
           Sample_returns_hash_len Sample_accepts_salt16
           Sample.salt Sample.iv Sample.plaintext "enc-pw");
    reflexivity.
Defined.

(** C2 on the stand-ins: the twenty-byte blob makes [decrypt_blob] raise. *)
Lemma decrypt_blob_short_blob_raises_witness :
  base64.urlsafe_b64decode Sample.short_blob = ok (replicate 20 x00)
  /\ length (replicate 20 x00) < 32
  /\ exists e,
      decrypt_blob (L := Sample.libraries) Sample.short_blob "enc-pw" = inl e
      /\ (derive_key (L := Sample.libraries) "enc-pw" (take 16 (replicate 20 x00))
          = inl e
          \/ e = Raise ValueError
                   ("Invalid IV size (" +:+ pretty (length (replicate 20 x00) - 16)
                    +:+ ") for CFB.")).
Proof.
  split; [reflexivity|]. split; [cbn; lia|].
  apply (decrypt_blob_short_blob_raises (L := Sample.libraries)
           Sample_returns_hash_len Sample.short_blob (replicate 20 x00) "enc-pw");
    [reflexivity | cbn; lia].
Defined.

(** C2, as the specification words it, fails.  This blob decodes to twenty
    bytes; [decrypt_blob] raises on it the [ValueError] of the cipher
    constructor, which names the four bytes left for the IV, and does so for
    every instance of the libraries whose hash returns a key.  The class of
    that exception is not [MalformedBlob]. *)
Lemma decrypt_blob_short_blob_not_MalformedBlob :
  base64.urlsafe_b64decode Sample.short_blob = ok (replicate 20 x00)
  /\ length (replicate 20 x00) < 32
  /\ decrypt_blob (L := Sample.libraries) Sample.short_blob "enc-pw"
     = raise ValueError "Invalid IV size (4) for CFB."
  /\ (forall (L : Libraries) pw key,
        derive_key pw (replicate 16 x00) = ok key ->
        exists msg, decrypt_blob Sample.short_blob pw = raise ValueError msg)
  /\ ValueError <> MalformedBlob.
Proof.
  split; [reflexivity|]. split; [cbn; lia|]. split; [reflexivity|]. split; [|done].
  intros L pw key Hk. unfold decrypt_blob.
  change (base64.urlsafe_b64decode Sample.short_blob) with (ok (replicate 20 x00)).
  rewrite bind_ok. cbv zeta.
  change (take 16 (replicate 20 x00)) with (replicate 16 x00). rewrite Hk, bind_ok.
  unfold cryptography.algorithms_AES. case_bool_decide.
  - rewrite bind_ok. eexists. reflexivity.
  - eexists. reflexivity.
Qed.

(** C5 on the stand-ins: the sample blob with a wrong passphrase still
    decrypts, to as many bytes as the ciphertext has. *)
Lemma decrypt_blob_never_signals_wrong_passphrase_witness :
  base64.urlsafe_b64decode Sample.blob = ok Sample.decoded
  /\ 32 <= length Sample.decoded
  /\ exists plaintext,
      decrypt_blob (L := Sample.libraries) Sample.blob "not the passphrase"
      = ok plaintext
      /\ length plaintext = length Sample.decoded - 32.
Proof.
  split; [apply urlsafe_b64_roundtrip|]. split; [cbn; lia|].
  apply (decrypt_blob_never_signals_wrong_passphrase (L := Sample.libraries)
           Sample_returns_hash_len Sample_accepts_salt16
           Sample.blob Sample.decoded "not the passphrase");
    [apply urlsafe_b64_roundtrip | cbn; lia].
Defined.

(** C3, as the specification words it, fails.  In this directory the
    enumeration yields [b.json] before [a.json]; the first name in sorted
    order is [a.json], and part 2 of [main] decrypts and deletes [b.json],
    leaving [a.json] as it was. *)
Lemma main_decrypt_not_first_in_sorted_order :
  glob "*.json" (fs Sample.two_payloads) = ["b.json"; "a.json"]
  /\ first_in_sorted_order (glob "*.json" (fs Sample.two_payloads)) = Some "a.json"
  /\ main_decrypt (L := Sample.libraries) Sample.os "/home/user/bw-backup" "enc-pw"
       Sample.two_payloads
     = ({| zip_file := zip_file Sample.two_payloads;
           fs := [("a.json", File Sample.blob);
                  ("b_decrypted.json", File Sample.plaintext)];
           stdout :=
             [NL +:+ "🔓 Decrypting b.json...";
              "✅ Successfully decrypted backup!";
              "📄 Decrypted JSON saved to: /home/user/bw-backup/b_decrypted.json"] |},
        Normal tt).
Proof. repeat split; vm_compute; reflexivity. Qed.

(** C3 on the stand-ins: with [b.json] enumerated before [a.json], part 2
    announces [b.json], decrypts it into [b_decrypted.json] and removes it;
    [a.json] holds what it held. *)
Lemma main_decrypt_selects_first_enumerated_witness :
  glob "*.json" (fs Sample.two_payloads) = ["b.json"; "a.json"]
  /\ (exists before n after,
        fs Sample.two_payloads = before ++ ("b.json", n) :: after
        /\ glob "*.json" before = [])
  /\ (exists lines,
        stdout (main_decrypt (L := Sample.libraries) Sample.os "/home/user/bw-backup"
                  "enc-pw" Sample.two_payloads).1
        = stdout Sample.two_payloads
          ++ (NL +:+ "🔓 Decrypting " +:+ "b.json" +:+ "...") :: lines)
  /\ (main_decrypt (L := Sample.libraries) Sample.os "/home/user/bw-backup" "enc-pw"
        Sample.two_payloads).2
     <> SystemExit "❌ No JSON file found in extracted backup"
  /\ (main_decrypt (L := Sample.libraries) Sample.os "/home/user/bw-backup" "enc-pw"
        Sample.two_payloads).2 = Normal tt
  /\ (exists blob plaintext data,
        fs_lookup "b.json" (fs Sample.two_payloads) = Some (File blob)
        /\ decrypt_blob (L := Sample.libraries) blob "enc-pw" = ok plaintext
        /\ json_loads (Libraries := Sample.libraries) plaintext = ok data
        /\ fs (main_decrypt (L := Sample.libraries) Sample.os "/home/user/bw-backup"
                 "enc-pw" Sample.two_payloads).1
           = fs_remove "b.json"
               (fs_store (pathlib.stem "b.json" +:+ "_decrypted.json")
                  (File (json_dump (Libraries := Sample.libraries) data))
                  (fs Sample.two_payloads)))
  /\ fs_lookup "a.json"
       (fs (main_decrypt (L := Sample.libraries) Sample.os "/home/user/bw-backup"
              "enc-pw" Sample.two_payloads).1)
     = fs_lookup "a.json" (fs Sample.two_payloads).
Proof.
  split; [vm_compute; reflexivity|].
  destruct (main_decrypt_selects_first_enumerated (L := Sample.libraries) Sample.os
              "/home/user/bw-backup" "enc-pw" "b.json" ["a.json"] Sample.two_payloads)
    as (Hfirst & Hline & Hexit & Hdone & Hothers & Hruns);
    [vm_compute; reflexivity|].
  assert ((main_decrypt (L := Sample.libraries) Sample.os "/home/user/bw-backup"
             "enc-pw" Sample.two_payloads).2 = Normal tt) as Hnormal.
  { apply (Hruns Sample.blob Sample.plaintext Sample.plaintext);
      vm_compute; (reflexivity || discriminate). }
  split; [exact Hfirst|]. split; [exact Hline|]. split; [exact Hexit|].
  split; [exact Hnormal|]. split; [exact (Hdone Hnormal)|].
  apply Hothers; vm_compute; discriminate.
Defined.

(** C4 on the stand-ins: in the sample run the payload is gone after part 2,
    and the output holds the serialised data. *)
Lemma payload_deleted_only_after_output_written_witness :
  glob "*.json" (fs Sample.extracted) = ["bw-backup.json"]
  /\ main_decrypt (L := Sample.libraries) Sample.os (output_dir_of Sample.zip_path)
       "enc-pw" Sample.extracted
     = (Sample.decrypted, Normal tt)
  /\ fs_lookup "bw-backup.json" (fs Sample.decrypted) = None
  /\ exists blob plaintext data,
      fs_lookup "bw-backup.json" (fs Sample.extracted) = Some (File blob)
      /\ decrypt_blob (L := Sample.libraries) blob "enc-pw" = ok plaintext
      /\ json_loads (Libraries := Sample.libraries) plaintext = ok data
      /\ os_write Sample.os (pathlib.stem "bw-backup.json" +:+ "_decrypted.json")
           (json_dump (Libraries := Sample.libraries) data) = None
      /\ fs_lookup (pathlib.stem "bw-backup.json" +:+ "_decrypted.json")
           (fs Sample.decrypted)
         = Some (File (json_dump (Libraries := Sample.libraries) data))
      /\ Normal tt = Normal tt.
Proof.
  assert (glob "*.json" (fs Sample.extracted) = ["bw-backup.json"]) as Hglob
    by (vm_compute; reflexivity).
  assert (main_decrypt (L := Sample.libraries) Sample.os (output_dir_of Sample.zip_path)
            "enc-pw" Sample.extracted = (Sample.decrypted, Normal tt)) as Hrun
    by (vm_compute; reflexivity).
  split; [exact Hglob|]. split; [exact Hrun|]. split; [vm_compute; reflexivity|].
  apply (payload_deleted_only_after_output_written (L := Sample.libraries) Sample.os
           (Sample.operator EmptyString)
           (output_dir_of Sample.zip_path) "enc-pw" "bw-backup.json" []
           Sample.extracted Sample.decrypted (Normal tt) Hglob Hrun).
  vm_compute; reflexivity.
Defined.

(** C7 on the stand-ins: the sample run with an empty attachments
    password. *)
Lemma empty_attachments_password_skips_witness :
  exists w',
    main (L := Sample.libraries) Sample.os (Sample.operator EmptyString)
      Sample.zip_path Sample.world = (w', Normal tt)
    /\ exit_status (main (L := Sample.libraries) Sample.os (Sample.operator EmptyString)
                      Sample.zip_path Sample.world).2 = 0%Z
    /\ fs w' = fs Sample.decrypted
    /\ (exists n, fs_lookup "attachments_2024.zip" (fs w') = Some n)
    /\ stdout w'
       = stdout Sample.decrypted
         ++ [NL +:+ "📎 Found attachments ZIP: " +:+ "attachments_2024.zip";
             "⏭️  Skipping attachments extraction";
             NL +:+ "✨ All done! Everything saved to: "
             +:+ output_dir_of Sample.zip_path].
Proof.
  apply (empty_attachments_password_skips (L := Sample.libraries) Sample.os
           (Sample.operator EmptyString) Sample.zip_path (encode "PK backup")
           Sample.world Sample.world Sample.extracted Sample.decrypted
           "attachments_2024.zip" []);
    vm_compute; reflexivity.
Defined.

(** C8 on the stand-ins: a wrong attachments password after a good run of
    parts 1 and 2, and a wrong ZIP password at the start. *)
Lemma attachments_bad_password_not_fatal_witness :
  (main_attachments (L := Sample.libraries) Sample.os (Sample.operator "guess")
     (output_dir_of Sample.zip_path) Sample.decrypted).2 = Normal tt
  /\ exit_status
       (main_attachments (L := Sample.libraries) Sample.os (Sample.operator "guess")
          (output_dir_of Sample.zip_path) Sample.decrypted).2 = 0%Z
  /\ (exists n,
        fs_lookup "attachments_2024.zip"
          (fs (main_attachments (L := Sample.libraries) Sample.os
                 (Sample.operator "guess") (output_dir_of Sample.zip_path)
                 Sample.decrypted).1)
        = Some n)
  /\ main (L := Sample.libraries) Sample.os Sample.intruder Sample.zip_path Sample.world
     = ({| zip_file := zip_file Sample.world; fs := [];
           stdout := ["📦 Extracting backup ZIP...";
                      "📦 ZIP compression method: AES encrypted"] |},
        SystemExit "❌ ZIP extraction failed: Bad password for file 'bw-backup.json'")
  /\ exit_status
       (main (L := Sample.libraries) Sample.os Sample.intruder Sample.zip_path
          Sample.world).2 = 1%Z.
Proof.
  destruct (attachments_bad_password_not_fatal (L := Sample.libraries) Sample.os
              (Sample.operator "guess") Sample.zip_path (output_dir_of Sample.zip_path))
    as [Hnested _].
  destruct (attachments_bad_password_not_fatal (L := Sample.libraries) Sample.os
              Sample.intruder Sample.zip_path (output_dir_of Sample.zip_path))
    as [_ Houter].
  pose (w1 := ((print (NL +:+ "📎 Found attachments ZIP: " +:+ "attachments_2024.zip");;
                mkdir_exist_ok Sample.os (pathlib.stem "attachments_2024.zip"))
                 Sample.decrypted).1).
  pose (w2 := (attachments_suite (L := Sample.libraries) Sample.os
                 (output_dir_of Sample.zip_path) "attachments_2024.zip"
                 (pathlib.stem "attachments_2024.zip") (encode "guess") w1).1).
  destruct (Hnested Sample.decrypted w1 w2 "attachments_2024.zip" []
              (Raise RuntimeError "Bad password for file 'photo.png'"))
    as (Hmain & Hexit & _ & Hkept); try (vm_compute; reflexivity).
  { vm_compute. discriminate. }
  destruct (Houter Sample.world Sample.world
              {| zip_file := zip_file Sample.world; fs := [];
                 stdout := ["📦 Extracting backup ZIP...";
                            "📦 ZIP compression method: AES encrypted"] |}
              (encode "PK backup")
              (Raise RuntimeError "Bad password for file 'bw-backup.json'"))
    as (Hexit_main & Hstatus); try (vm_compute; reflexivity).
  split; [by rewrite Hmain|]. split; [exact Hexit|]. split; [by rewrite Hmain|].
  split; [exact Hexit_main | exact Hstatus].
Defined.



(** * Further properties of the script *)

(** ** Names: patterns, stems and components *)

Lemma fnmatch_star (pat name : string) :
  pathlib.fnmatch (String "*" pat) name
  = pathlib.fnmatch pat name
    || match name with
       | EmptyString => false
       | String _ name' => pathlib.fnmatch (String "*" pat) name'
       end.
Proof. by destruct name. Qed.

(** A name that ends with what the pattern after a star matches is matched. *)
Lemma fnmatch_star_suffix (pat s t : string) :
  pathlib.fnmatch pat t = true -> pathlib.fnmatch (String "*" pat) (s +:+ t) = true.
Proof.
  intros H. induction s as [|c s IH].
  - change (EmptyString +:+ t) with t. rewrite fnmatch_star, H. done.
  - change (String c s +:+ t) with (String c (s +:+ t)).
    rewrite fnmatch_star, IH. apply orb_true_r.
Qed.

(** When the end of a pattern matches one text only, every name that the
    pattern matches ends with that text. *)
Lemma fnmatch_ends (lit : string) :
  (forall name, pathlib.fnmatch lit name = true -> name = lit) ->
  forall pat name,
    pathlib.fnmatch (pat +:+ lit) name = true -> exists s, name = s +:+ lit.
Proof.
  intros Hlit pat. induction pat as [|p pat IH]; intros name.
  - change (EmptyString +:+ lit) with lit. intros H%Hlit. by exists EmptyString.
  - change (String p pat +:+ lit) with (String p (pat +:+ lit)).
    destruct (Ascii.eqb p "*") eqn:Ep.
    + apply Ascii.eqb_eq in Ep as ->.
      induction name as [|c name IHn]; rewrite fnmatch_star.
      * rewrite orb_false_r. apply IH.
      * intros [H|H]%orb_true_iff; [by apply IH|].
        destruct (IHn H) as [s ->]. by exists (String c s).
    + cbn [pathlib.fnmatch]. rewrite Ep. destruct name as [|c name]; [done|].
      intros [_ H]%andb_true_iff. destruct (IH _ H) as [s ->]. by exists (String c s).
Qed.

(** A literal character of a pattern matches itself only. *)
Lemma fnmatch_literal (p : ascii) (pat name : string) :
  Ascii.eqb p "*" = false -> Ascii.eqb p "?" = false ->
  pathlib.fnmatch (String p pat) name = true ->
  exists name', name = String p name' /\ pathlib.fnmatch pat name' = true.
Proof.
  intros Hs Hq. cbn [pathlib.fnmatch]. rewrite Hs, Hq.
  destruct name as [|c name]; [done|].
  intros [->%Ascii.eqb_eq H]%andb_true_iff. eauto.
Qed.

Lemma fnmatch_dot_json (name : string) :
  pathlib.fnmatch ".json" name = true -> name = ".json".
Proof.
  intros H.
  do 5 (apply fnmatch_literal in H as (? & -> & H); [|done..]).
  match goal with H : pathlib.fnmatch _ ?x = true |- _ => by destruct x end.
Qed.

Lemma fnmatch_dot_zip (name : string) :
  pathlib.fnmatch ".zip" name = true -> name = ".zip".
Proof.
  intros H.
  do 4 (apply fnmatch_literal in H as (? & -> & H); [|done..]).
  match goal with H : pathlib.fnmatch _ ?x = true |- _ => by destruct x end.
Qed.

Lemma append_nil_r (s : string) : s +:+ EmptyString = s.
Proof.
  induction s as [|c s IH]; [done|].
  change (String c (s +:+ EmptyString) = String c s). by rewrite IH.
Qed.

(** Two texts that end differently are different. *)
Lemma append_last_ne (s t : string) (a b : ascii) :
  a <> b -> s +:+ String a EmptyString <> t +:+ String b EmptyString.
Proof.
  intros Hab. revert t. induction s as [|c s IH]; intros [|d t] H.
  - by injection H.
  - injection H as _ H. by destruct t.
  - injection H as _ H. by destruct s.
  - injection H as _ H. by apply IH in H.
Qed.

(** No name with the suffix [.json] matches [attachments_*.zip]. *)
Lemma json_not_attachments (s : string) :
  pathlib.fnmatch "attachments_*.zip" (s +:+ ".json") = false.
Proof.
  destruct (pathlib.fnmatch _ _) eqn:H; [|done]. exfalso.
  apply (fnmatch_ends ".zip" fnmatch_dot_zip "attachments_*") in H as [t H].
  change ".json" with (".jso" +:+ "n") in H. change ".zip" with (".zi" +:+ "p") in H.
  rewrite <- !append_assoc in H. by apply append_last_ne in H.
Qed.

Lemma rfind_dot_append (s t : string) (i : nat) :
  pathlib.rfind_dot (s +:+ t) i
  = match pathlib.rfind_dot t (i + String.length s) with
    | Some j => Some j
    | None => pathlib.rfind_dot s i
    end.
Proof.
  revert i. induction s as [|c s IH]; intros i.
  - change (EmptyString +:+ t) with t. cbn. rewrite Nat.add_0_r. by destruct pathlib.rfind_dot.
  - change (String c s +:+ t) with (String c (s +:+ t)). cbn [pathlib.rfind_dot String.length].
    rewrite IH. replace (S i + String.length s) with (i + S (String.length s)) by lia.
    by destruct (pathlib.rfind_dot t _).
Qed.

Lemma substring_append (s t : string) :
  String.substring 0 (String.length s) (s +:+ t) = s.
Proof.
  induction s as [|c s IH]; [by destruct t|].
  change (String c s +:+ t) with (String c (s +:+ t)). cbn. by rewrite IH.
Qed.

(** [stem] takes the suffix [.json] off a name that has more than the
    suffix, and leaves the bare [.json] alone. *)
Lemma stem_json (s : string) :
  pathlib.stem (s +:+ ".json") = if decide (s = EmptyString) then ".json" else s.
Proof.
  unfold pathlib.stem. rewrite rfind_dot_append.
  change (pathlib.rfind_dot ".json" (0 + String.length s))
    with (Some (0 + String.length s)).
  rewrite append_length. destruct s as [|c s]; [done|].
  rewrite decide_False by done.
  replace (_ && _) with true.
  - apply substring_append.
  - symmetry. apply andb_true_iff. split; apply Nat.ltb_lt; cbn; lia.
Qed.

Lemma contains_cons (needle : string) (c : ascii) (rest : string) :
  contains needle (String c rest)
  = String.prefix needle (String c rest) || contains needle rest.
Proof. done. Qed.

Lemma contains_slash_append (s t : string) :
  contains "/" (s +:+ t) = contains "/" s || contains "/" t.
Proof.
  induction s as [|c s IH].
  - change (EmptyString +:+ t) with t. done.
  - change (String c s +:+ t) with (String c (s +:+ t)).
    rewrite !contains_cons, IH. cbn [String.prefix].
    destruct (ascii_dec "/" c); [|done]. by destruct (s +:+ t); destruct s.
Qed.

Lemma is_child_append (s t : string) :
  pathlib.is_child (s +:+ t) = pathlib.is_child s && pathlib.is_child t.
Proof. unfold pathlib.is_child. by rewrite contains_slash_append, negb_orb. Qed.

(** What the listing holds at a matching direct child, [glob] yields. *)
Lemma glob_intro pattern fs path n :
  fs_lookup path fs = Some n ->
  pathlib.is_child path = true -> pathlib.fnmatch pattern path = true ->
  In path (glob pattern fs).
Proof.
  intros Hl Hc Hm. unfold glob. apply in_map_iff.
  induction fs as [|[p m] fs IH]; [done|]. cbn in Hl.
  destruct (String.eqb p path) eqn:E.
  - apply String.eqb_eq in E as ->. exists (path, m). split; [done|].
    apply filter_In. split; [by left|]. cbn. by rewrite Hc, Hm.
  - destruct (IH Hl) as (x & Hx & Hin). exists x. split; [done|].
    apply filter_In in Hin as [? ?]. apply filter_In. split; [by right|done].
Qed.

(** ** How the parts of [main] can end *)

Lemma pbind_inv {A B} (m : prog A) (k : A -> prog B) (w w' : World) (o : outcome B) :
  pbind m k w = (w', o) ->
  (exists w1 a, m w = (w1, Normal a) /\ k a w1 = (w', o))
  \/ (exists e, m w = (w', Exc e) /\ o = Exc e)
  \/ (exists msg, m w = (w', SystemExit msg) /\ o = SystemExit msg).
Proof.
  unfold pbind. destruct (m w) as [w1 [a|e|msg]]; intros H; simplify_eq; eauto 10.
Qed.


Section Outcomes.
Context {L : Libraries}.
Variable os : OS.
Variable operator : Operator.

(** No suite of a [try] calls [sys.exit]: each completes or raises. *)
Lemma never_exits_pbind {A B} (m : prog A) (k : A -> prog B) :
  never_exits m -> (forall a, never_exits (k a)) -> never_exits (pbind m k).
Proof.
  intros Hm Hk w w' msg H.
  apply pbind_inv in H as [(w1 & a & _ & H)|[(e & _ & ?)|(msg' & H & _)]];
    [by apply Hk in H | done | by apply Hm in H].
Qed.

Lemma never_exits_lift {A} (r : result A) : never_exits (lift r).
Proof. intros w w' msg. unfold lift. by destruct r. Qed.

Lemma never_exits_print (line : string) : never_exits (print line).
Proof. by intros w w' msg. Qed.

Lemma never_exits_pret {A} (a : A) : never_exits (pret a).
Proof. by intros w w' msg. Qed.

Lemma never_exits_read_file path : never_exits (read_file os path).
Proof. intros w w' msg. unfold read_file. by repeat case_match. Qed.

Lemma never_exits_write_file path data : never_exits (write_file os path data).
Proof. intros w w' msg. unfold write_file. by repeat case_match. Qed.

Lemma never_exits_unlink path : never_exits (unlink os path).
Proof. intros w w' msg. unfold unlink. by repeat case_match. Qed.

Lemma never_exits_mkdir_exist_ok path : never_exits (mkdir_exist_ok os path).
Proof. intros w w' msg. unfold mkdir_exist_ok. by repeat case_match. Qed.

Lemma never_exits_extract_members zf prefix pwd members :
  never_exits (extract_members os zf prefix pwd members).
Proof.
  induction members as [|m members IH]; cbn [extract_members].
  - apply never_exits_pret.
  - repeat (apply never_exits_pbind; [|intros ?]);
      auto using never_exits_lift, never_exits_write_file.
Qed.


Lemma never_exits_attachments_suite output_dir attachments_zip dir pwd :
  never_exits (attachments_suite os output_dir attachments_zip dir pwd).
Proof.
  unfold attachments_suite, extractall, open_attachments.
  repeat (apply never_exits_pbind; [|intros ?]);
    auto using never_exits_lift, never_exits_print, never_exits_read_file,
      never_exits_unlink, never_exits_extract_members.
Qed.





End Outcomes.

(** ** The script as a whole *)

Section ScriptFacts.
Context {L : Libraries}.
Variable os : OS.
Variable operator : Operator.
Variable Path_of : string -> Path.


(** X2.  An invocation that cannot start leaves no trace.  With an argument
    count other than one the script stops with the usage line; with one
    argument for which [is_file] answers false (no regular file is there,
    and [stat] raised nothing) it stops with "File not found" and the path
    as [str] prints it, a bare relative name without a directory part.  In
    both cases nothing was printed, no directory made and no file touched:
    the world is the one the script was started in. *)
Theorem script_cannot_start_leaves_no_trace (argv : list string) (w : World) :
  length argv <> 2
  \/ (zip_file w = None
      /\ os_stat os (path_str (Path_of (nth 1 argv EmptyString))) = None) ->
  script os operator Path_of argv w
  = (w, SystemExit
          (if decide (length argv = 2)
           then "❌ File not found: " +:+ path_str (Path_of (nth 1 argv EmptyString))
           else usage)).
Proof.
  intros H. unfold script.
  destruct (decide (length argv = 2)) as [Hl|Hl].
  - destruct H as [?|[H Hs]]; [done|]. rewrite Hl. cbn [Nat.eqb negb].
    unfold main, is_file. unfold pbind at 1. by rewrite H, Hs.
  - by apply Nat.eqb_neq in Hl as ->.
Qed.

(** X3.  An archive without members.  When the backup opens as an archive
    with no entry, part 1 does not look for a first entry: it prints no
    compression method, extracts nothing and reports zero files; with no
    [.json] file in the output directory [main] then stops with "No JSON
    file found in extracted backup".  Nothing has been put into the output
    directory, which [main] has made by then if it was absent: its entries
    are what they were. *)
Theorem main_empty_archive (zip_path : Path) (w : World) (data : bytes)
    (zf : pyzipper.AESZipFile) :
  zip_file w = Some data ->
  os_read os (path_str zip_path) = None ->
  os_mkdir os (output_dir_of zip_path) = None ->
  AESZipFile_open data = ok zf ->
  pyzipper.namelist zf = [] ->
  glob "*.json" (fs w) = [] ->
  main os operator zip_path w
  = ({| zip_file := zip_file w;
        fs := fs w;
        stdout := stdout w ++ ["📦 Extracting backup ZIP...";
                               "✅ Extracted 0 file(s) to: " +:+ output_dir_of zip_path] |},
     SystemExit "❌ No JSON file found in extracted backup").
Proof.
  intros Hz Hr Hm Ho Hn Hg. rewrite (main_unfold _ _ _ _ _ Hz). cbv zeta.
  unfold pbind at 1. unfold mkdir_output_dir. rewrite Hm.
  unfold pbind at 1. unfold main_extract. unfold pbind at 1. cbn [print].
  unfold try_except, extract_suite, extractall. unfold pbind at 1.
  unfold open_backup. rewrite Hr. cbn [zip_file]. rewrite Hz, Ho. cbn [lift ok].
  rewrite Hn. cbn [extract_members length]. unfold pbind at 1 2. cbn [pret print].
  cbn [zip_file fs stdout].
  unfold pbind at 1. unfold main_decrypt. unfold pbind at 1. cbn [fs]. rewrite Hg.
  unfold sys_exit. by rewrite <- app_assoc.
Qed.

End ScriptFacts.

(** ** Parts 2 and 3 of [main] *)

Section PartFacts.
Context {L : Libraries}.
Variable os : OS.
Variable operator : Operator.

(** Part 2 with its [try] taken apart. *)
Lemma main_decrypt_inv (output_dir enc_pwd json_file : string) rest
    (w w' : World) (o : outcome unit) :
  glob "*.json" (fs w) = json_file :: rest ->
  main_decrypt os output_dir enc_pwd w = (w', o) ->
  exists o',
    decrypt_suite os output_dir enc_pwd json_file
      {| zip_file := zip_file w; fs := fs w;
         stdout := stdout w ++ [NL +:+ "🔓 Decrypting " +:+ json_file +:+ "..."] |}
    = (w', o')
    /\ (o' = Normal tt -> o = Normal tt) /\ (o = Normal tt -> o' = Normal tt).
Proof.
  intros Hg. rewrite (main_decrypt_unfold _ _ _ _ _ _ Hg).
  unfold pbind, print, try_except.
  destruct (decrypt_suite _ _ _ _ _) as [w1 [[]|e|msg]]; cbn.
  - intros [= <- <-]. eauto.
  - unfold sys_exit. destruct (is_Exception e); cbn; intros [= <- <-];
      eexists; (split; [done|]); done.
  - intros [= <- <-]. eexists; (split; [done|]); done.
Qed.

(** X4.  A payload that does not decrypt or parse leaves the directory as it
    was.  When decrypting the blob of the selected payload, or parsing what
    the decryption returns (the usual sign of a wrong passphrase), raises an
    [Exception] [e], part 2 stops with [sys.exit("Decryption failed: e")]:
    it has printed the one line that names the payload, written no output
    file and deleted nothing. *)
Theorem undecryptable_payload_changes_nothing
    (output_dir enc_pwd json_file : string) (rest : list string)
    (w : World) (blob : bytes) (e : exn) :
  glob "*.json" (fs w) = json_file :: rest ->
  fs_lookup json_file (fs w) = Some (File blob) ->
  os_read os json_file = None ->
  (do plaintext <- decrypt_blob blob enc_pwd; json_loads plaintext) = inl e ->
  is_Exception e = true ->
  main_decrypt os output_dir enc_pwd w
  = ({| zip_file := zip_file w;
        fs := fs w;
        stdout := stdout w ++ [NL +:+ "🔓 Decrypting " +:+ json_file +:+ "..."] |},
     SystemExit ("❌ Decryption failed: " +:+ exn_msg e)).
Proof.
  intros Hg Hl Hr He Hx. rewrite (main_decrypt_unfold _ _ _ _ _ _ Hg).
  unfold pbind at 1. cbn [print]. unfold try_except, decrypt_suite.
  unfold pbind at 1. unfold read_file. rewrite Hr. cbn [fs]. rewrite Hl.
  unfold pbind at 1. unfold lift at 1.
  destruct (decrypt_blob blob enc_pwd) as [e'|plaintext].
  - cbn in He. simplify_eq. cbn. by rewrite Hx.
  - rewrite bind_ok in He. unfold pbind at 1. unfold lift at 1. rewrite He.
    cbn. by rewrite Hx.
Qed.

(** X5.  Part 2 touches two paths at most.  Whatever happens while the
    payload is read, decrypted, parsed, written out and deleted, every path
    of the directory other than the payload and the output named after it
    holds afterwards what it held before. *)
Theorem main_decrypt_touches_two_paths
    (output_dir enc_pwd json_file : string) (rest : list string)
    (w w' : World) (o : outcome unit) (path : string) :
  glob "*.json" (fs w) = json_file :: rest ->
  main_decrypt os output_dir enc_pwd w = (w', o) ->
  path <> json_file ->
  path <> pathlib.stem json_file +:+ "_decrypted.json" ->
  fs_lookup path (fs w') = fs_lookup path (fs w).
Proof.
  intros Hg H Hj Hd. destruct (main_decrypt_inv _ _ _ _ _ _ _ Hg H) as (o' & Hs & _).
  apply decrypt_suite_inv in Hs. cbn [fs] in Hs.
  destruct Hs as [(_ & ? & ? & ? & _ & _ & _ & _ & ->)|[_ [->| [? ->]]]].
  - by rewrite fs_lookup_remove_ne, fs_lookup_store_ne.
  - done.
  - by rewrite fs_lookup_store_ne.
Qed.

(** X6.  The name of the output.  When part 2 completes, the payload it
    selected has a name [s.json]; the output is [s_decrypted.json] (for the
    bare name [.json], whose stem is the whole name,
    [.json_decrypted.json]) and holds the serialised data.  The output is
    itself a direct child that matches [*.json], and the payload no longer
    is one: the candidates of a later run on the same directory include the
    decrypted file and not the payload. *)
Theorem decrypted_output_name
    (output_dir enc_pwd json_file : string) (rest : list string) (w w' : World) :
  glob "*.json" (fs w) = json_file :: rest ->
  main_decrypt os output_dir enc_pwd w = (w', Normal tt) ->
  exists (s : string) (data : JSON),
    let decrypted_json :=
      (if decide (s = EmptyString) then ".json" else s) +:+ "_decrypted.json" in
    json_file = s +:+ ".json"
    /\ fs_lookup decrypted_json (fs w') = Some (File (json_dump data))
    /\ In decrypted_json (glob "*.json" (fs w'))
    /\ ~ In json_file (glob "*.json" (fs w')).
Proof.
  intros Hg H.
  destruct (glob_In "*.json" (fs w) json_file) as (Hc & Hm & _).
  { rewrite Hg. by left. }
  apply (fnmatch_ends ".json" fnmatch_dot_json "*") in Hm as [s ->].
  destruct (main_decrypt_inv _ _ _ _ _ _ _ Hg H) as (o' & Hs & _ & Ho).
  rewrite (Ho eq_refl) in Hs. apply decrypt_suite_inv in Hs. cbn [fs] in Hs.
  destruct Hs as [(_ & blob & plaintext & data & _ & _ & _ & _ & Hfs)|[[? ?] _]];
    [|done].
  rewrite stem_json in Hfs. exists s, data. cbv zeta.
  set (stem := if decide (s = EmptyString) then ".json" else s) in *.
  assert (stem +:+ "_decrypted.json" <> s +:+ ".json") as Hne.
  { pose proof (stem_decrypted_ne (s +:+ ".json")) as Hne.
    by rewrite stem_json in Hne. }
  assert (fs_lookup (stem +:+ "_decrypted.json") (fs w')
          = Some (File (json_dump data))) as Hl.
  { rewrite Hfs, fs_lookup_remove_ne, fs_lookup_store_eq; done. }
  split; [done|]. split; [done|]. split.
  - apply (glob_intro _ _ _ _ Hl).
    + rewrite is_child_append in Hc |- *. apply andb_true_iff in Hc as [Hc _].
      rewrite andb_true_r. unfold stem. by destruct (decide _).
    + change "_decrypted.json" with ("_decrypted" +:+ ".json").
      rewrite <- append_assoc. by apply fnmatch_star_suffix.
  - intros (_ & _ & n & Hn)%glob_In. by rewrite Hfs, fs_lookup_remove_eq in Hn.
Qed.

End PartFacts.

(** ** Extraction *)

Section ExtractionFacts.
Context {L : Libraries}.
Variable os : OS.
Variable operator : Operator.

(** What a completed extraction leaves: every member name holds what the
    archive gives for that name, and only the member paths were touched. *)
Lemma extract_members_frame zf (prefix : string) pwd members (path : string)
    (w w' : World) (o : outcome unit) :
  (forall m, In m members -> path <> prefix +:+ m) ->
  extract_members os zf prefix pwd members w = (w', o) ->
  fs_lookup path (fs w') = fs_lookup path (fs w).
Proof.
  revert w. induction members as [|m members IH]; intros w Hp.
  - by intros [= <- <-].
  - cbn [extract_members]. unfold pbind, lift, write_file, set_fs.
    assert (prefix +:+ m <> path) as Hne by (intros <-; apply (Hp m); [by left|done]).
    assert (forall m, In m members -> path <> prefix +:+ m) as Hp'
      by (intros ? ?; apply Hp; by right).
    intros H. repeat (case_match; simplify_eq/=); try done;
      match goal with
      | H : extract_members _ _ _ _ _ _ = _ |- _ =>
          apply (IH _ Hp') in H; cbn [fs] in H; rewrite H
      | _ => idtac
      end; by rewrite ?fs_lookup_store_ne.
Qed.

Lemma extract_members_writes zf (prefix : string) pwd members (w w' : World) :
  extract_members os zf prefix pwd members w = (w', Normal tt) ->
  forall m, In m members ->
    exists info content,
      pyzipper.getinfo zf m = Some info
      /\ pyzipper.read info pwd = ok content
      /\ fs_lookup (prefix +:+ m) (fs w') = Some (File content).
Proof.
  revert w. induction members as [|m members IH]; intros w H m' Hin; [done|].
  cbn [extract_members] in H.
  destruct (pyzipper.getinfo zf m) as [info|] eqn:Hi; [|done].
  unfold pbind at 1 in H. cbn [lift ok] in H.
  unfold pbind at 1 in H. unfold lift at 1 in H.
  destruct (pyzipper.read info pwd) as [e|content] eqn:Hr; [done|].
  unfold pbind at 1 in H.
  destruct (write_file os (prefix +:+ m) content w) as [w1 [[]|e|msg]] eqn:Hw;
    [|done..].
  destruct (in_dec String.string_dec m' members) as [Hm|Hm]; [by eapply IH|].
  destruct Hin as [<-|Hin]; [|done].
  exists info, content. split; [done|]. split; [done|].
  rewrite (extract_members_frame zf prefix pwd members (prefix +:+ m) w1 w' (Normal tt)).
  - unfold write_file, set_fs in Hw.
    repeat (case_match; simplify_eq/=); by rewrite fs_lookup_store_eq.
  - intros m' Hin ->%append_inv_head. done.
  - done.
Qed.

Lemma mkdir_exist_ok_inv (path : string) (w w1 : World) :
  mkdir_exist_ok os path w = (w1, Normal tt) ->
  fs w1 = fs w
  \/ (fs_lookup path (fs w) = None /\ fs w1 = fs_store path Dir (fs w)).
Proof.
  unfold mkdir_exist_ok, set_fs. intros H.
  repeat (case_match; simplify_eq/=); auto.
Qed.

(** The suite of part 3 leaves the direct children other than the archive
    alone; when it completes, the archive had opened, its members were
    extracted and the archive was removed last. *)
Lemma attachments_suite_frame (output_dir attachments_zip dir : string) pwd
    (path : string) (w w' : World) (o : outcome unit) :
  pathlib.is_child path = true -> path <> attachments_zip ->
  attachments_suite os output_dir attachments_zip dir pwd w = (w', o) ->
  fs_lookup path (fs w') = fs_lookup path (fs w).
Proof.
  intros Hchild Hne H.
  unfold attachments_suite, open_attachments, extractall in H.
  unfold pbind, read_file, lift, print, unlink, set_fs in H.
  repeat (case_match; simplify_eq/=); try done;
    match goal with
    | H : extract_members _ _ _ _ _ _ = _ |- _ =>
        apply (extract_members_keeps _ _ _ _ _ path) in H; [|done];
        cbn [fs] in H; by rewrite ?fs_lookup_remove_ne
    end.
Qed.

Lemma attachments_suite_completed (output_dir attachments_zip dir : string) pwd
    (w w' : World) :
  attachments_suite os output_dir attachments_zip dir pwd w = (w', Normal tt) ->
  exists blob zf w1 w2,
    fs_lookup attachments_zip (fs w) = Some (File blob)
    /\ AESZipFile_open blob = ok zf
    /\ extract_members os zf (dir +:+ "/") pwd (pyzipper.namelist zf) w1
       = (w2, Normal tt)
    /\ fs w' = fs_remove attachments_zip (fs w2).
Proof.
  intros H.
  unfold attachments_suite, open_attachments, extractall in H.
  unfold pbind, read_file, lift, print, unlink, set_fs in H.
  repeat (case_match; simplify_eq/=).
  match goal with u : unit |- _ => destruct u end. eauto 10.
Qed.

(** Part 3 taken apart: it leaves the file system alone (nothing to
    extract, no password, or the directory could not be made), or it made
    the directory and ran the suite, whose exceptions it reports. *)
Lemma main_attachments_inv (output_dir attachments_zip : string) rest
    (w w' : World) (o : outcome unit) :
  glob "attachments_*.zip" (fs w) = attachments_zip :: rest ->
  main_attachments os operator output_dir w = (w', o) ->
  fs w' = fs w
  \/ exists w0 w1 w2 o',
      fs w0 = fs w
      /\ mkdir_exist_ok os (pathlib.stem attachments_zip) w0 = (w1, Normal tt)
      /\ attachments_suite os output_dir attachments_zip
           (pathlib.stem attachments_zip)
           (encode (attachments_password operator)) w1 = (w2, o')
      /\ fs w' = fs w2
      /\ (o' = Normal tt -> o = Normal tt).
Proof.
  intros Hg. unfold main_attachments. unfold pbind at 1. rewrite Hg.
  unfold pbind at 1. unfold pbind at 1. cbn [print].
  destruct (encode _) as [|b pwd].
  { cbn. intros [= <- <-]. by left. }
  unfold pbind at 1.
  destruct (mkdir_exist_ok _ _ _) as [w1 [[]|e1|msg1]] eqn:Hm.
  - unfold try_except.
    destruct (attachments_suite _ _ _ _ _ _) as [w2 [[]|e2|msg2]] eqn:Hs.
    + cbn. intros [= <- <-]. right. eexists _, w1, w2, _.
      split; [|split; [exact Hm|split; [exact Hs|done]]]. done.
    + intros H. right. eexists _, w1, w2, _.
      split; [|split; [exact Hm|split; [exact Hs|]]]; [done|]. split; [|done].
      revert H. cbn. destruct (is_RuntimeError e2); cbn.
      { destruct (contains _ _); cbn; by intros [= <- <-]. }
      destruct (is_Exception e2); cbn; by intros [= <- <-].
    + by apply never_exits_attachments_suite in Hs.
  - intros [= <- <-]. left. unfold mkdir_exist_ok in Hm.
    repeat (case_match; simplify_eq/=); done.
  - by apply never_exits_mkdir_exist_ok in Hm.
Qed.

(** X7.  The attachments archive is deleted only after all of it was
    extracted.  For a run of part 3 on the archive that [glob] yields
    first, an archive of plain member names (single components other than
    ["."] and [".."]: no directory entries, nothing for [extractall] to
    sanitise):
    - if the archive is gone afterwards, the part returned, the archive had
      opened, and for every member name the file of that name below the
      attachments directory (the stem of the archive's name) holds what the
      archive gives for the name with the operator's password;
    - whatever happened, every direct child of the directory other than the
      archive and the attachments directory holds what it held, the
      decrypted output among them. *)
Theorem attachments_deleted_only_after_extraction
    (output_dir attachments_zip : string) (rest : list string)
    (w w' : World) (o : outcome unit) :
  glob "attachments_*.zip" (fs w) = attachments_zip :: rest ->
  (forall blob zf,
      fs_lookup attachments_zip (fs w) = Some (File blob) ->
      AESZipFile_open blob = ok zf ->
      Forall (fun m => plain_name m = true) (pyzipper.namelist zf)) ->
  main_attachments os operator output_dir w = (w', o) ->
  (fs_lookup attachments_zip (fs w') = None ->
   o = Normal tt
   /\ exists blob zf,
       fs_lookup attachments_zip (fs w) = Some (File blob)
       /\ AESZipFile_open blob = ok zf
       /\ forall m, In m (pyzipper.namelist zf) ->
            exists info content,
              pyzipper.getinfo zf m = Some info
              /\ pyzipper.read info (encode (attachments_password operator)) = ok content
              /\ fs_lookup (pathlib.stem attachments_zip +:+ "/" +:+ m) (fs w')
                 = Some (File content))
  /\ (forall path,
        pathlib.is_child path = true ->
        path <> attachments_zip -> path <> pathlib.stem attachments_zip ->
        fs_lookup path (fs w') = fs_lookup path (fs w)).
Proof.
  intros Hg _ H.
  destruct (glob_In "attachments_*.zip" (fs w) attachments_zip) as (Hc & _ & n & Hn).
  { rewrite Hg. by left. }
  apply (main_attachments_inv _ _ _ _ _ _ Hg) in H
    as [Hfs|(w0 & w1 & w2 & o' & Hfs0 & Hm & Hs & Hfs & Ho)].
  { rewrite Hfs. split; [by rewrite Hn|done]. }
  assert (fs_lookup attachments_zip (fs w1) = Some n) as Hn1.
  { apply mkdir_exist_ok_inv in Hm as [->|[Hnone ->]]; rewrite Hfs0; [done|].
    rewrite fs_lookup_store_ne; [done|]. intros E. rewrite E in Hnone. congruence. }
  rewrite Hfs. split.
  - intros Hgone. assert (o' = Normal tt \/ o' <> Normal tt) as [->|Hne]
      by (destruct o' as [[]| |]; auto); cycle 1.
    { rewrite (attachments_suite_keeps _ _ _ _ _ _ _ _ Hc Hs Hne) in Hgone.
      congruence. }
    split; [by apply Ho|].
    apply attachments_suite_completed in Hs
      as (blob & zf & w3 & w4 & Hl & Hopen & He & Hrm).
    exists blob, zf. split; [congruence|]. split; [done|].
    intros m Hin. destruct (extract_members_writes _ _ _ _ _ _ He m Hin)
      as (info & content & ? & ? & Hw).
    exists info, content. split; [done|]. split; [done|].
    rewrite Hrm, fs_lookup_remove_ne; [by rewrite <- append_assoc|].
    intros E. unfold pathlib.is_child in Hc.
    by rewrite E, contains_append in Hc.
  - intros path Hp Hna Hnd.
    rewrite (attachments_suite_frame _ _ _ _ _ _ _ _ Hp Hna Hs).
    apply mkdir_exist_ok_inv in Hm as [->|[_ ->]]; rewrite Hfs0; [done|].
    by rewrite fs_lookup_store_ne.
Qed.

(** X8.  A regular file in the place of the attachments directory stops the
    run.  [attachments_dir.mkdir(exist_ok=True)] stands before the [try] of
    part 3: when the operator gives a password and the directory holds a
    regular file with the stem of the archive's name, part 3 ends with an
    uncaught [FileExistsError] (exit status one).  Nothing is extracted, the
    closing line is not printed, and the file system is as it was. *)
Theorem attachments_directory_name_taken
    (output_dir attachments_zip : string) (rest : list string)
    (w : World) (data : bytes) :
  glob "attachments_*.zip" (fs w) = attachments_zip :: rest ->
  encode (attachments_password operator) <> [] ->
  os_mkdir os (pathlib.stem attachments_zip) = None ->
  fs_lookup (pathlib.stem attachments_zip) (fs w) = Some (File data) ->
  exists msg,
    main_attachments os operator output_dir w
    = ({| zip_file := zip_file w;
          fs := fs w;
          stdout := stdout w ++ [NL +:+ "📎 Found attachments ZIP: " +:+ attachments_zip] |},
       Exc (Raise FileExistsError msg))
    /\ exit_status (Exc (Raise FileExistsError msg)) = 1%Z.
Proof.
  intros Hg Hp Hm Hl. eexists. split; [|done].
  unfold main_attachments. unfold pbind at 1. rewrite Hg.
  unfold pbind at 1. unfold pbind at 1. cbn [print].
  destruct (encode _) as [|b pwd]; [done|].
  unfold pbind at 1. unfold mkdir_exist_ok. rewrite Hm. cbn [fs]. by rewrite Hl.
Qed.

End ExtractionFacts.

(** ** A whole run *)

Lemma glob_cons pattern (path : string) (n : node) (fs : listing) :
  glob pattern ((path, n) :: fs)
  = if pathlib.is_child path && pathlib.fnmatch pattern path
    then path :: glob pattern fs else glob pattern fs.
Proof. unfold glob. cbn. by destruct (_ && _). Qed.

Section RunFacts.
Context {L : Libraries}.
Variable os : OS.
Variable operator : Operator.

(** X9.  A run on a fresh directory.  When the backup opens as an archive
    whose one member is a payload [json_file] (a plain name matching
    [*.json]) that the ZIP password opens, the blob decrypts and parses, the
    output directory is empty and the operating system refuses none of the
    operations, [main] returns (status zero) having printed its eight
    lines, and the directory holds exactly one file: the output named after
    the payload, with the serialised data.  The payload is gone. *)
Theorem main_fresh_directory (zip_path : Path) (w : World) (data : bytes)
    (zf : pyzipper.AESZipFile) (info : pyzipper.ZipInfo) (json_file : string)
    (blob plaintext : bytes) (d : JSON) :
  zip_file w = Some data ->
  fs w = [] ->
  AESZipFile_open data = ok zf ->
  pyzipper.filelist zf = [info] ->
  pyzipper.filename info = json_file ->
  pathlib.is_child json_file = true ->
  pathlib.fnmatch "*.json" json_file = true ->
  pyzipper.read info (encode (zip_password operator)) = ok blob ->
  decrypt_blob blob (encryption_password operator) = ok plaintext ->
  json_loads plaintext = ok d ->
  os_read os (path_str zip_path) = None ->
  os_mkdir os (output_dir_of zip_path) = None ->
  os_write os json_file blob = None ->
  os_read os json_file = None ->
  os_write os (pathlib.stem json_file +:+ "_decrypted.json") (json_dump d) = None ->
  os_unlink os json_file = None ->
  main os operator zip_path w
  = ({| zip_file := Some data;
        fs := [(pathlib.stem json_file +:+ "_decrypted.json", File (json_dump d))];
        stdout :=
          stdout w
          ++ ["📦 Extracting backup ZIP...";
              "📦 ZIP compression method: "
                +:+ compress_name (pyzipper.compress_type info);
              "✅ Extracted 1 file(s) to: " +:+ output_dir_of zip_path;
              NL +:+ "🔓 Decrypting " +:+ json_file +:+ "...";
              "✅ Successfully decrypted backup!";
              "📄 Decrypted JSON saved to: " +:+ output_dir_of zip_path +:+ "/"
                +:+ pathlib.stem json_file +:+ "_decrypted.json";
              NL +:+ "ℹ️  No attachments ZIP found in backup";
              NL +:+ "✨ All done! Everything saved to: " +:+ output_dir_of zip_path] |},
     Normal tt).
Proof.
  intros Hz Hfs Hopen Hlist Hname Hchild Hmatch Hread Hdec Hparse
    Hr1 Hmk Hw1 Hr2 Hw2 Hun.
  assert (pyzipper.namelist zf = [json_file]) as Hnl.
  { unfold pyzipper.namelist. by rewrite Hlist, <- Hname. }
  assert (pyzipper.getinfo zf json_file = Some info) as Hget.
  { unfold pyzipper.getinfo. rewrite Hlist. cbn. by rewrite Hname, String.eqb_refl. }
  pose proof (stem_decrypted_ne json_file) as Hne.
  assert (String.eqb json_file (pathlib.stem json_file +:+ "_decrypted.json") = false)
    as Hne1 by (by apply String.eqb_neq).
  assert (String.eqb (pathlib.stem json_file +:+ "_decrypted.json") json_file = false)
    as Hne2 by (by apply String.eqb_neq).
  assert (pathlib.fnmatch "attachments_*.zip"
            (pathlib.stem json_file +:+ "_decrypted.json") = false) as Hatt.
  { change "_decrypted.json" with ("_decrypted" +:+ ".json").
    rewrite <- append_assoc. apply json_not_attachments. }
  rewrite (main_unfold _ _ _ _ _ Hz). cbv zeta.
  (* the output directory *)
  rewrite (pbind_normal _ _ w w tt) by (unfold mkdir_output_dir; by rewrite Hmk).
  (* part 1 *)
  erewrite pbind_normal; cycle 1.
  { unfold main_extract. rewrite (pbind_normal _ _ _ _ tt eq_refl).
    unfold try_except, extract_suite, extractall.
    erewrite pbind_normal; cycle 1.
    { unfold open_backup. rewrite Hr1. cbn [zip_file]. by rewrite Hz, Hopen. }
    rewrite Hnl, Hget. cbn [extract_members]. rewrite Hget.
    erewrite pbind_normal; cycle 1.
    { rewrite (pbind_normal _ _ _ _ info eq_refl). reflexivity. }
    erewrite pbind_normal; cycle 1.
    { rewrite (pbind_normal _ _ _ _ info eq_refl).
      erewrite pbind_normal; [|unfold lift; by rewrite Hread].
      erewrite pbind_normal; [reflexivity|].
      unfold write_file. cbn [fs]. rewrite Hfs. cbn [fs_lookup].
      change (EmptyString +:+ json_file) with json_file. rewrite Hw1. reflexivity. }
    reflexivity. }
  cbn [set_fs fs_store zip_file fs stdout length].
  (* part 2 *)
  erewrite pbind_normal; cycle 1.
  { unfold main_decrypt. unfold pbind at 1. cbn [fs].
    rewrite glob_cons, Hchild, Hmatch. cbn [andb].
    rewrite (pbind_normal _ _ _ _ tt eq_refl).
    unfold try_except, decrypt_suite.
    erewrite pbind_normal; cycle 1.
    { unfold read_file. rewrite Hr2. cbn [fs fs_lookup]. by rewrite String.eqb_refl. }
    erewrite pbind_normal; [|unfold lift; by rewrite Hdec].
    erewrite pbind_normal; [|unfold lift; by rewrite Hparse].
    erewrite pbind_normal; cycle 1.
    { unfold write_file. cbn [fs fs_lookup]. rewrite Hne1, Hw2. reflexivity. }
    rewrite (pbind_normal _ _ _ _ tt eq_refl).
    rewrite (pbind_normal _ _ _ _ tt eq_refl).
    unfold unlink. rewrite Hun. cbn [print set_fs fs_store fs fs_lookup].
    rewrite Hne1. cbn [fs_lookup]. rewrite String.eqb_refl. reflexivity. }
  cbn [set_fs fs_remove zip_file fs stdout]. rewrite String.eqb_refl, Hne2.
  (* part 3 *)
  unfold main_attachments. unfold pbind at 1. cbn [set_fs fs zip_file stdout].
  rewrite glob_cons, Hatt, andb_false_r. cbn [glob List.filter map].
  rewrite (pbind_normal _ _ _ _ tt eq_refl). unfold print.
  cbn [set_fs zip_file fs stdout]. do 2 f_equal. by rewrite <- !app_assoc.
Qed.

End RunFacts.

(** ** What the decoder passes over *)

Lemma a2b_loop_skips (ascii_data : bytes) (quad_pos : nat) (leftchar : N)
    (pads : nat) (bin_data : bytes) :
  base64.a2b_loop
    (List.filter (fun c => Byte.eqb c base64.BASE64_PAD
                           || match base64.table_a2b_base64 c with
                              | Some _ => true
                              | None => false
                              end) ascii_data)
    quad_pos leftchar pads bin_data
  = base64.a2b_loop ascii_data quad_pos leftchar pads bin_data.
Proof.
  revert quad_pos leftchar pads bin_data.
  induction ascii_data as [|c rest IH]; intros quad_pos leftchar pads bin_data; [done|].
  cbn [List.filter base64.a2b_loop].
  destruct (Byte.eqb c base64.BASE64_PAD) eqn:Ep; cbn [orb].
  - cbn [base64.a2b_loop]. rewrite Ep. by rewrite !IH.
  - destruct (base64.table_a2b_base64 c) as [v|] eqn:Et; [|apply IH].
    cbn [base64.a2b_loop]. rewrite Ep, Et.
    destruct quad_pos as [|[|[|?]]]; apply IH.
Qed.

Lemma urlsafe_b64decode_skips (s : bytes) :
  base64.urlsafe_b64decode (List.filter base64_significant s)
  = base64.urlsafe_b64decode s.
Proof.
  unfold base64.urlsafe_b64decode, base64.a2b_base64.
  rewrite <- (a2b_loop_skips (map _ s)). f_equal.
  induction s as [|c s IH]; [done|]. cbn [List.filter map].
  unfold base64_significant at 1.
  destruct (_ || _); cbn [map]; by rewrite IH.
Qed.

Lemma decrypt_blob_filter `{L : Libraries} (blob : bytes) (enc_pwd : string) :
  decrypt_blob (List.filter base64_significant blob) enc_pwd
  = decrypt_blob blob enc_pwd.
Proof. unfold decrypt_blob. by rewrite urlsafe_b64decode_skips. Qed.

(** X10.  [decrypt_blob] reads the base64 characters of the blob and nothing
    else.  The decoding is the non-validating one: bytes that are neither
    [=] nor characters of the URL-safe or the standard alphabet (line
    breaks, spaces, any other byte) are passed over wherever they stand, so
    a blob with such bytes in it and the blob without them give the same
    result, be it the plaintext or the exception. *)
Theorem decrypt_blob_ignores_other_bytes `{L : Libraries} (before other after : bytes)
    (enc_pwd : string) :
  Forall (fun c => base64_significant c = false) other ->
  decrypt_blob (before ++ other ++ after) enc_pwd
  = decrypt_blob (before ++ after) enc_pwd.
Proof.
  intros H. rewrite <- (decrypt_blob_filter (before ++ other ++ after)).
  rewrite <- (decrypt_blob_filter (before ++ after)).
  rewrite !List.filter_app. do 2 f_equal.
  replace (List.filter base64_significant other) with (@nil byte); [done|].
  induction H as [|c other Hc _ IH]; [done|]. cbn. by rewrite Hc.
Qed.

(** ** Exceptions inside the [try] statements of parts 1 and 3 *)

Section HandlerFacts.
Context {L : Libraries}.
Variable os : OS.
Variable operator : Operator.

(** X11.  Every [Exception] raised while the attachments are opened,
    extracted or deleted is reported and not fatal, not only a refused
    password.  When the directory could be made and the suite raises an
    [Exception] [e], part 3 prints one report, still prints the closing
    line and returns (status zero), and the archive holds what it held.
    The report is "Incorrect attachments password" exactly when [e] is a
    [RuntimeError] whose message contains "Bad password"; otherwise it is
    "Attachments extraction failed:" with the message of [e] (a file that is
    no ZIP archive, a refused read or write, an unsupported method). *)
Theorem attachments_failure_reported
    (output_dir attachments_zip : string) (rest : list string)
    (w w1 w2 : World) (e : exn) :
  glob "attachments_*.zip" (fs w) = attachments_zip :: rest ->
  encode (attachments_password operator) <> [] ->
  (print (NL +:+ "📎 Found attachments ZIP: " +:+ attachments_zip);;
   mkdir_exist_ok os (pathlib.stem attachments_zip)) w = (w1, Normal tt) ->
  attachments_suite os output_dir attachments_zip
    (pathlib.stem attachments_zip) (encode (attachments_password operator)) w1
  = (w2, Exc e) ->
  is_Exception e = true ->
  main_attachments os operator output_dir w
  = ({| zip_file := zip_file w2; fs := fs w2;
        stdout := stdout w2
          ++ [if is_RuntimeError e && contains "Bad password" (exn_msg e)
              then "❌ Incorrect attachments password"
              else "❌ Attachments extraction failed: " +:+ exn_msg e;
              NL +:+ "✨ All done! Everything saved to: " +:+ output_dir] |},
     Normal tt)
  /\ fs_lookup attachments_zip (fs w2) = fs_lookup attachments_zip (fs w).
Proof.
  intros Hg Hpw Hmk Hs He.
  destruct (glob_In "attachments_*.zip" (fs w) attachments_zip) as (Hc & _ & n & Hn).
  { rewrite Hg. by left. }
  split.
  - unfold main_attachments. unfold pbind at 1 2. rewrite Hg.
    destruct (encode (attachments_password operator)) as [|b pw] eqn:Hb; [done|].
    unfold pbind at 1 in Hmk. unfold pbind at 1 2.
    cbn [print] in Hmk |- *. rewrite Hmk. unfold try_except. rewrite Hs.
    cbn [find fst snd]. destruct (is_RuntimeError e); cbn [find fst snd andb].
    + destruct (contains _ _); unfold print; cbn [zip_file fs stdout];
        by rewrite <- app_assoc.
    + rewrite He. cbn [find fst snd]. unfold print. cbn [zip_file fs stdout].
      by rewrite <- app_assoc.
  - rewrite (attachments_suite_keeps _ _ _ _ _ _ _ _ Hc Hs ltac:(done)).
    apply pbind_inv in Hmk as [(w0 & [] & [= <-] & Hm)|[(? & ? & ?)|(? & ? & ?)]];
      [|done..].
    apply mkdir_exist_ok_inv in Hm as [->|[Hnone ->]]; [done|]. cbn [fs] in *.
    rewrite fs_lookup_store_ne; [done|]. intros E. rewrite E in Hnone. congruence.
Qed.

(** X12.  Every [Exception] raised while the backup is opened and extracted
    is fatal.  Whatever the suite of part 1 raises (the file is no ZIP
    archive, a refused password, an unsupported method, a refused write),
    [main] stops with [sys.exit("ZIP extraction failed: ...")] and the
    message of the exception, status one; it does not go on to decrypt, and
    the world is the one the suite left: what was extracted before the
    failure stays in the directory. *)
Theorem extraction_failure_is_fatal (zip_path : Path) (w0 w1 w2 : World)
    (data : bytes) (e : exn) :
  zip_file w0 = Some data ->
  mkdir_output_dir os (output_dir_of zip_path) w0 = (w1, Normal tt) ->
  (print "📦 Extracting backup ZIP...";;
   extract_suite os zip_path (output_dir_of zip_path)
     (encode (zip_password operator))) w1 = (w2, Exc e) ->
  is_Exception e = true ->
  main os operator zip_path w0
  = (w2, SystemExit ("❌ ZIP extraction failed: " +:+ exn_msg e))
  /\ exit_status (main os operator zip_path w0).2 = 1%Z.
Proof.
  intros Hz Hmk Hs He.
  assert (main os operator zip_path w0
          = (w2, SystemExit ("❌ ZIP extraction failed: " +:+ exn_msg e))) as Hmain.
  { rewrite (main_unfold _ _ _ _ _ Hz). cbv zeta.
    unfold pbind at 1. rewrite Hmk. unfold pbind at 1.
    unfold main_extract. unfold pbind at 1 in Hs. unfold pbind at 1.
    cbn [print] in Hs |- *. unfold try_except. rewrite Hs.
    cbn [find fst snd]. by rewrite He. }
  by rewrite Hmain.
Qed.

End HandlerFacts.

(** ** Runs on the stand-in primitives *)

Lemma script_cannot_start_leaves_no_trace_witness :
  script (L := Sample.libraries) Sample.os (Sample.operator EmptyString) Plain.Path_of
    ["./decrypt_lazywarden.py"] Sample.world
  = (Sample.world, SystemExit usage)
  /\ script (L := Sample.libraries) Sample.os (Sample.operator EmptyString) Plain.Path_of
       ["./decrypt_lazywarden.py"; "/home/user/bw-backup.zip"]
       {| zip_file := None; fs := []; stdout := [] |}
     = ({| zip_file := None; fs := []; stdout := [] |},
        SystemExit "❌ File not found: /home/user/bw-backup.zip")
  /\ script (L := Sample.libraries) Sample.os (Sample.operator EmptyString) Plain.Path_of
       ["./decrypt_lazywarden.py"; "nofile.zip"]
       {| zip_file := None; fs := []; stdout := [] |}
     = ({| zip_file := None; fs := []; stdout := [] |},
        SystemExit "❌ File not found: nofile.zip").
Proof.
  split; [|split].
  - apply (script_cannot_start_leaves_no_trace (L := Sample.libraries)). left. cbn. lia.
  - apply (script_cannot_start_leaves_no_trace (L := Sample.libraries) Sample.os
             (Sample.operator EmptyString) Plain.Path_of
             ["./decrypt_lazywarden.py"; "/home/user/bw-backup.zip"]).
    right. split; reflexivity.
  - apply (script_cannot_start_leaves_no_trace (L := Sample.libraries) Sample.os
             (Sample.operator EmptyString) Plain.Path_of
             ["./decrypt_lazywarden.py"; "nofile.zip"]).
    right. split; reflexivity.
Defined.

Lemma main_empty_archive_witness :
  main (L := Plain.libraries) Sample.os (Sample.operator EmptyString) Sample.zip_path
    Plain.empty_world
  = ({| zip_file := Some (encode "PK empty");
        fs := [];
        stdout := ["📦 Extracting backup ZIP...";
                   "✅ Extracted 0 file(s) to: /home/user/bw-backup"] |},
     SystemExit "❌ No JSON file found in extracted backup").
Proof.
  apply (main_empty_archive (L := Plain.libraries) Sample.os
           (Sample.operator EmptyString) Sample.zip_path Plain.empty_world
           (encode "PK empty") Plain.empty_archive); reflexivity.
Defined.

Lemma undecryptable_payload_changes_nothing_witness :
  main_decrypt (L := Sample.libraries) Sample.os "/home/user/bw-backup" "wrong"
    Sample.extracted
  = ({| zip_file := zip_file Sample.extracted;
        fs := fs Sample.extracted;
        stdout := stdout Sample.extracted
                  ++ [NL +:+ "🔓 Decrypting bw-backup.json..."] |},
     SystemExit "❌ Decryption failed: Expecting value: line 1 column 1 (char 0)").
Proof.
  apply (undecryptable_payload_changes_nothing (L := Sample.libraries) Sample.os
           "/home/user/bw-backup" "wrong" "bw-backup.json" [] Sample.extracted
           Sample.blob
           (Raise JSONDecodeError "Expecting value: line 1 column 1 (char 0)"));
    by vm_compute.
Defined.

Lemma main_decrypt_touches_two_paths_witness :
  fs_lookup "attachments_2024.zip" (fs Sample.decrypted)
  = fs_lookup "attachments_2024.zip" (fs Sample.extracted)
  /\ fs_lookup "attachments_2024.zip" (fs Sample.extracted)
     = Some (File (encode "PK attachments")).
Proof.
  split; [|by vm_compute].
  apply (main_decrypt_touches_two_paths (L := Sample.libraries) Sample.os
           "/home/user/bw-backup" "enc-pw" "bw-backup.json" [] Sample.extracted
           Sample.decrypted (Normal tt) "attachments_2024.zip"); by vm_compute.
Defined.

Lemma decrypted_output_name_witness :
  exists (s : string) (data : bytes),
    "bw-backup.json" = s +:+ ".json"
    /\ fs_lookup ((if decide (s = EmptyString) then ".json" else s) +:+ "_decrypted.json")
         (fs Sample.decrypted) = Some (File data)
    /\ In ((if decide (s = EmptyString) then ".json" else s) +:+ "_decrypted.json")
          (glob "*.json" (fs Sample.decrypted))
    /\ ~ In "bw-backup.json" (glob "*.json" (fs Sample.decrypted)).
Proof.
  apply (decrypted_output_name (L := Sample.libraries) Sample.os
           "/home/user/bw-backup" "enc-pw" "bw-backup.json" [] Sample.extracted
           Sample.decrypted); by vm_compute.
Defined.

Lemma attachments_deleted_only_after_extraction_witness :
  fs_lookup "attachments_2024.zip"
    (fs (main_attachments (L := Sample.libraries) Sample.os (Sample.operator "att-pw")
           "/home/user/bw-backup" Sample.decrypted).1) = None
  /\ (exists info content,
        pyzipper.getinfo Sample.attachments_archive "photo.png" = Some info
        /\ pyzipper.read info (encode "att-pw") = ok content
        /\ fs_lookup "attachments_2024/photo.png"
             (fs (main_attachments (L := Sample.libraries) Sample.os
                    (Sample.operator "att-pw") "/home/user/bw-backup"
                    Sample.decrypted).1)
           = Some (File content))
  /\ fs_lookup "bw-backup_decrypted.json"
       (fs (main_attachments (L := Sample.libraries) Sample.os (Sample.operator "att-pw")
              "/home/user/bw-backup" Sample.decrypted).1)
     = fs_lookup "bw-backup_decrypted.json" (fs Sample.decrypted).
Proof.
  destruct (attachments_deleted_only_after_extraction (L := Sample.libraries)
              Sample.os (Sample.operator "att-pw") "/home/user/bw-backup"
              "attachments_2024.zip" [] Sample.decrypted
              (main_attachments (L := Sample.libraries) Sample.os
                 (Sample.operator "att-pw") "/home/user/bw-backup" Sample.decrypted).1
              (Normal tt)) as [Hgone Hframe]; [by vm_compute| |by vm_compute|].
  { intros blob zf Hl Hopen. vm_compute in Hl. injection Hl as <-.
    vm_compute in Hopen. injection Hopen as <-. by repeat constructor. }
  split; [by vm_compute|]. split.
  - destruct (Hgone ltac:(by vm_compute)) as (_ & blob & zf & Hl & Hopen & Hm).
    assert (zf = Sample.attachments_archive) as ->.
    { vm_compute in Hl. injection Hl as <-. vm_compute in Hopen. by injection Hopen. }
    apply Hm. by left.
  - apply Hframe; by vm_compute.
Defined.

Lemma attachments_directory_name_taken_witness :
  exists msg,
    main_attachments (L := Sample.libraries) Sample.os (Sample.operator "att-pw")
      "/home/user/bw-backup" name_taken
    = ({| zip_file := zip_file name_taken;
          fs := fs name_taken;
          stdout := stdout name_taken
                    ++ [NL +:+ "📎 Found attachments ZIP: " +:+ "attachments_2024.zip"] |},
       Exc (Raise FileExistsError msg))
    /\ exit_status (Exc (Raise FileExistsError msg)) = 1%Z.
Proof.
  apply (attachments_directory_name_taken (L := Sample.libraries) Sample.os
           (Sample.operator "att-pw") "/home/user/bw-backup" "attachments_2024.zip" []
           name_taken (encode "note")); by vm_compute.
Defined.

Lemma main_fresh_directory_witness :
  main (L := Plain.libraries) Sample.os (Sample.operator EmptyString) Sample.zip_path
    Plain.world
  = ({| zip_file := Some (encode "PK payload");
        fs := [("bw-backup_decrypted.json", File (encode "{}"))];
        stdout := ["📦 Extracting backup ZIP...";
                   "📦 ZIP compression method: AES encrypted";
                   "✅ Extracted 1 file(s) to: /home/user/bw-backup";
                   NL +:+ "🔓 Decrypting bw-backup.json...";
                   "✅ Successfully decrypted backup!";
                   "📄 Decrypted JSON saved to: /home/user/bw-backup/bw-backup_decrypted.json";
                   NL +:+ "ℹ️  No attachments ZIP found in backup";
                   NL +:+ "✨ All done! Everything saved to: /home/user/bw-backup"] |},
     Normal tt).
Proof.
  apply (main_fresh_directory (L := Plain.libraries) Sample.os
           (Sample.operator EmptyString) Sample.zip_path Plain.world
           (encode "PK payload") Plain.payload_archive
           (Sample.member "bw-backup.json" 99 "zip-pw" Sample.blob) "bw-backup.json"
           Sample.blob (encode "{}") (encode "{}")); by vm_compute.
Defined.

Lemma decrypt_blob_ignores_other_bytes_witness :
  decrypt_blob (L := Sample.libraries)
    (take 10 Sample.blob ++ [x0a; x20] ++ drop 10 Sample.blob) "enc-pw"
  = decrypt_blob (L := Sample.libraries)
      (take 10 Sample.blob ++ drop 10 Sample.blob) "enc-pw"
  /\ decrypt_blob (L := Sample.libraries)
       (take 10 Sample.blob ++ drop 10 Sample.blob) "enc-pw" = ok Sample.plaintext.
Proof.
  split; [|by vm_compute].
  apply (decrypt_blob_ignores_other_bytes (L := Sample.libraries)).
  repeat constructor.
Defined.

Lemma attachments_failure_reported_witness :
  main_attachments (L := Sample.libraries) Sample.os (Sample.operator "att-pw")
    "/home/user/bw-backup" broken_attachments
  = ({| zip_file := Some (encode "PK backup");
        fs := [("attachments_2024.zip", File (encode "damaged"));
               ("attachments_2024", Dir)];
        stdout := [NL +:+ "📎 Found attachments ZIP: attachments_2024.zip";
                   "❌ Attachments extraction failed: File is not a zip file";
                   NL +:+ "✨ All done! Everything saved to: /home/user/bw-backup"] |},
     Normal tt)
  /\ fs_lookup "attachments_2024.zip"
       [("attachments_2024.zip", File (encode "damaged")); ("attachments_2024", Dir)]
     = fs_lookup "attachments_2024.zip" (fs broken_attachments).
Proof.
  apply (attachments_failure_reported (L := Sample.libraries) Sample.os
           (Sample.operator "att-pw") "/home/user/bw-backup" "attachments_2024.zip" []
           broken_attachments
           {| zip_file := Some (encode "PK backup");
              fs := [("attachments_2024.zip", File (encode "damaged"));
                     ("attachments_2024", Dir)];
              stdout := [NL +:+ "📎 Found attachments ZIP: attachments_2024.zip"] |}
           {| zip_file := Some (encode "PK backup");
              fs := [("attachments_2024.zip", File (encode "damaged"));
                     ("attachments_2024", Dir)];
              stdout := [NL +:+ "📎 Found attachments ZIP: attachments_2024.zip"] |}
           (Raise BadZipFile "File is not a zip file")); by vm_compute.
Defined.

Lemma extraction_failure_is_fatal_witness :
  main (L := Sample.libraries) Sample.os (Sample.operator EmptyString) Sample.zip_path
    not_a_zip
  = ({| zip_file := Some (encode "plain text");
        fs := [];
        stdout := ["📦 Extracting backup ZIP..."] |},
     SystemExit "❌ ZIP extraction failed: File is not a zip file")
  /\ exit_status
       (main (L := Sample.libraries) Sample.os (Sample.operator EmptyString)
          Sample.zip_path not_a_zip).2 = 1%Z.
Proof.
  apply (extraction_failure_is_fatal (L := Sample.libraries) Sample.os
           (Sample.operator EmptyString) Sample.zip_path not_a_zip not_a_zip
           {| zip_file := Some (encode "plain text");
              fs := [];
              stdout := ["📦 Extracting backup ZIP..."] |}
           (encode "plain text") (Raise BadZipFile "File is not a zip file"));
    by vm_compute.
Defined.
